(** * MolarAnalyzer: the apply callback and the plane construction

    A shallow embedding of [MolarAnalyzerWidget.onApplyButton] and
    [MolarAnalyzerWidget.createPlane] of [MolarAnalyzer.py].

    Python's [float] is the IEEE 754 binary64 format: it is embedded as the
    primitive type [float], whose operations the kernel evaluates and whose
    meaning [FloatAxioms] gives through [Prim2SF].  The objects of the host
    (3D Slicer's MRML scene and Qt widgets, VTK's plane source) are not part
    of the repository: the scene and the widgets are embedded as records
    that hold what the module reads and writes through them, the plane
    source with the arithmetic of its methods, on which the geometry of
    the planes depends. *)

From Stdlib Require Import ZArith List String Ascii Floats Lia Bool DecimalString.
From stdpp Require Import base list strings option.

#[local] Set Warnings "-inexact-float".
#[local] Open Scope string_scope.

(** ** Numbers *)

(** Two classes of [spec_float], the meaning of the binary64 values. *)

(** [x] is a number (not the NaN). *)
Definition SF_is_number (x : spec_float) : bool :=
  match x with S754_nan => false | _ => true end.

(** [x] is a finite number: a zero or a finite non-zero value. *)
Definition SF_is_finite (x : spec_float) : bool :=
  match x with S754_zero _ | S754_finite _ _ _ => true | _ => false end.

(** A float that is not the NaN: a real number or an infinity. *)
Definition is_number (d : float) : bool := SF_is_number (Prim2SF d).

(** A float that stands for a real number. *)
Definition is_real (d : float) : bool := SF_is_finite (Prim2SF d).

(** ** Formatting: the format specification [.2f] *)

(** [num / den] rounded to the nearest integer, ties to the even one
    ([den] positive); Python's float formatting rounds the exact binary
    value correctly. *)
Definition round_half_even (num den : Z) : Z :=
  let q := (num / den)%Z in
  let r := (num mod den)%Z in
  match (2 * r ?= den)%Z with
  | Lt => q
  | Gt => (q + 1)%Z
  | Eq => if Z.even q then q else (q + 1)%Z
  end.

(** The hundredths in [m * 2^e], rounded. *)
Definition hundredths (m : positive) (e : Z) : Z :=
  match e with
  | Zneg p => round_half_even (Zpos m * 100) (2 ^ Zpos p)
  | _ => (Zpos m * 2 ^ e * 100)%Z
  end.

Definition decimal (n : Z) : string :=
  NilZero.string_of_uint (N.to_uint (Z.to_N n)).

(** [n] hundredths written with two digits after the point. *)
Definition fixed2 (n : Z) : string :=
  let frac := (n mod 100)%Z in
  decimal (n / 100) ++ "." ++ decimal (frac / 10) ++ decimal (frac mod 10).

Definition sign_prefix (s : bool) : string := if s then "-" else "".

(** [f"{d:.2f}"] *)
Definition format_2f (d : float) : string :=
  match Prim2SF d with
  | S754_nan => "nan"
  | S754_infinity s => sign_prefix s ++ "inf"
  | S754_zero s => sign_prefix s ++ "0.00"
  | S754_finite s m e => sign_prefix s ++ fixed2 (hundredths m e)
  end.

(** The line feed of the label's text. *)
Definition LF : string := String (ascii_of_nat 10) EmptyString.

(** ** The classification of [onApplyButton] *)

(** The branches of lines 152-160 assign [risk_class] and [color]
    together. *)
Definition classify (diff : float) : string * string :=
  if (diff <? 2.0)%float then
    ("HIGH COMPLEXITY (Red)", "#ffcccc")
  else if (diff <? 5.0)%float then
    ("MODERATE COMPLEXITY (Amber)", "#fff4cc")
  else
    ("LOW COMPLEXITY (White)", "#ccffcc").

Definition risk_class (diff : float) : string := fst (classify diff).
Definition color_of (diff : float) : string := snd (classify diff).

(** The three tiers of the specification, read off the label. *)
Inductive tier := high | moderate | low.

Definition tier_label (t : tier) : string :=
  match t with
  | high => "HIGH COMPLEXITY (Red)"
  | moderate => "MODERATE COMPLEXITY (Amber)"
  | low => "LOW COMPLEXITY (White)"
  end.

Definition tier_color (t : tier) : string :=
  match t with
  | high => "#ffcccc"
  | moderate => "#fff4cc"
  | low => "#ccffcc"
  end.

(** The tier the specification gives a difference [d]: the half-open
    intervals below 2.0, from 2.0 to 5.0, and from 5.0. *)
Definition in_tier (d : float) (t : tier) : Prop :=
  match t with
  | high => (d <? 2.0)%float = true
  | moderate => (2.0 <=? d)%float = true /\ (d <? 5.0)%float = true
  | low => (5.0 <=? d)%float = true
  end.

(** ** Host objects *)

(** A Python list of three numbers: a position or an RGB colour. *)
Record Vec3 := mkVec3 { item0 : float; item1 : float; item2 : float }.

(** *** vtkPlaneSource *)

(** VTK's plane source is embedded with the behaviour of its methods:
    the three points [Origin], [Point1] and [Point2] define a
    parallelogram, [Point1] and [Point2] being the ends of its two edges
    from [Origin]; [Center] and [Normal] follow the three points;
    [Update] generates the grid of points, which is stored in single
    precision. *)

(** The geometry a source generates: the points of its grid. *)
Record vtkPolyData := mkPolyData { Points : list Vec3 }.

(** The binary32 value nearest to a binary64 value (ties to even), as the
    binary64 value that a read of the stored point gives back: a value
    beyond the binary32 range becomes an infinity, one below it a zero. *)
Definition round32 (d : float) : float :=
  match Prim2SF d with
  | S754_finite s m e => SF2Prim (binary_round 24 128 s m e)
  | _ => d
  end.

(** [vtkMath]: operations on vectors of three doubles. *)
Definition Vec3_map2 (f : float -> float -> float) (a b : Vec3) : Vec3 :=
  mkVec3 (f (item0 a) (item0 b)) (f (item1 a) (item1 b)) (f (item2 a) (item2 b)).

(** [a[0] == b[0] && a[1] == b[1] && a[2] == b[2]]. *)
Definition Vec3_eqb (a b : Vec3) : bool :=
  (item0 a =? item0 b)%float && (item1 a =? item1 b)%float
  && (item2 a =? item2 b)%float.

Definition Dot (a b : Vec3) : float :=
  (item0 a * item0 b + item1 a * item1 b + item2 a * item2 b)%float.

Definition Cross (a b : Vec3) : Vec3 :=
  mkVec3 (item1 a * item2 b - item2 a * item1 b)%float
         (item2 a * item0 b - item0 a * item2 b)%float
         (item0 a * item1 b - item1 a * item0 b)%float.

Definition Norm (v : Vec3) : float :=
  sqrt (item0 v * item0 v + item1 v * item1 v + item2 v * item2 v)%float.

(** [vtkMath::Normalize]: the length of [v], and [v] divided by it unless
    it is zero. *)
Definition Normalize (v : Vec3) : float * Vec3 :=
  let den := Norm v in
  (den,
   if (den =? 0)%float then v
   else mkVec3 (item0 v / den) (item1 v / den) (item2 v / den))%float.

Record vtkPlaneSource := mkPlaneSource {
  Center : Vec3;
  Normal : Vec3;
  XResolution : nat;
  YResolution : nat;
  Origin : Vec3;
  Point1 : Vec3;
  Point2 : Vec3;
  Output : vtkPolyData
}.

(** [vtk.vtkPlaneSource()]: the unit square of the plane z = 0, and no
    geometry yet. *)
Definition vtkPlaneSource_new : vtkPlaneSource :=
  {| Center := mkVec3 0 0 0;
     Normal := mkVec3 0 0 1;
     XResolution := 1;
     YResolution := 1;
     Origin := mkVec3 (-0.5) (-0.5) 0;
     Point1 := mkVec3 0.5 (-0.5) 0;
     Point2 := mkVec3 (-0.5) 0.5 0;
     Output := mkPolyData [] |}.

(** The two edges from [Origin]. *)
Definition Axis1 (p : vtkPlaneSource) : Vec3 := Vec3_map2 sub (Point1 p) (Origin p).
Definition Axis2 (p : vtkPlaneSource) : Vec3 := Vec3_map2 sub (Point2 p) (Origin p).

(** [UpdatePlane(v1, v2)]: the centre and the normal of the plane with the
    edges [v1] and [v2]; [false] when the edges span no plane. *)
Definition UpdatePlane (v1 v2 : Vec3) (p : vtkPlaneSource) : bool * vtkPlaneSource :=
  let center :=
    Vec3_map2 (fun o s => o + 0.5 * s)%float (Origin p) (Vec3_map2 add v1 v2) in
  let '(den, normal) := Normalize (Cross v1 v2) in
  (negb (den =? 0)%float,
   mkPlaneSource center normal (XResolution p) (YResolution p)
                 (Origin p) (Point1 p) (Point2 p) (Output p)).

(** [SetCenter]: nothing at the centre the source has; otherwise the three
    points are moved so that the plane keeps its edges around the new
    centre. *)
Definition SetCenter (x y z : float) (p : vtkPlaneSource) : vtkPlaneSource :=
  let center := mkVec3 x y z in
  if Vec3_eqb (Center p) center then p
  else
    let v1 := Axis1 p in
    let v2 := Axis2 p in
    let origin :=
      Vec3_map2 (fun c s => c - 0.5 * s)%float center (Vec3_map2 add v1 v2) in
    mkPlaneSource center (Normal p) (XResolution p) (YResolution p)
                  origin (Vec3_map2 add origin v1) (Vec3_map2 add origin v2)
                  (Output p).

(** [SetNormal]: nothing for a zero vector (an error is logged) and
    nothing for the direction the plane has; otherwise the three points
    are turned about the centre by a transform of the host, which is not
    embedded: [None]. *)
Definition SetNormal (x y z : float) (p : vtkPlaneSource) : option vtkPlaneSource :=
  let '(den, n) := Normalize (mkVec3 x y z) in
  if (den =? 0)%float then Some p
  else if (1 <=? Dot (Normal p) n)%float then Some p
  else None.

Definition SetXResolution (n : nat) (p : vtkPlaneSource) : vtkPlaneSource :=
  mkPlaneSource (Center p) (Normal p) n (YResolution p)
                (Origin p) (Point1 p) (Point2 p) (Output p).

Definition SetYResolution (n : nat) (p : vtkPlaneSource) : vtkPlaneSource :=
  mkPlaneSource (Center p) (Normal p) (XResolution p) n
                (Origin p) (Point1 p) (Point2 p) (Output p).

Definition SetOrigin (x y z : float) (p : vtkPlaneSource) : vtkPlaneSource :=
  mkPlaneSource (Center p) (Normal p) (XResolution p) (YResolution p)
                (mkVec3 x y z) (Point1 p) (Point2 p) (Output p).

(** [SetPoint1], [SetPoint2]: nothing at the point the source has;
    otherwise the point is stored and the centre and the normal are
    computed again. *)
Definition SetPoint1 (x y z : float) (p : vtkPlaneSource) : vtkPlaneSource :=
  let pnt := mkVec3 x y z in
  if Vec3_eqb (Point1 p) pnt then p
  else
    let p := mkPlaneSource (Center p) (Normal p) (XResolution p) (YResolution p)
                           (Origin p) pnt (Point2 p) (Output p) in
    snd (UpdatePlane (Axis1 p) (Axis2 p) p).

Definition SetPoint2 (x y z : float) (p : vtkPlaneSource) : vtkPlaneSource :=
  let pnt := mkVec3 x y z in
  if Vec3_eqb (Point2 p) pnt then p
  else
    let p := mkPlaneSource (Center p) (Normal p) (XResolution p) (YResolution p)
                           (Origin p) (Point1 p) pnt (Output p) in
    snd (UpdatePlane (Axis1 p) (Axis2 p) p).

Definition float_of_nat (n : nat) : float :=
  of_uint63 (Uint63.of_Z (Z.of_nat n)).

(** The grid point at the fractions [tv0] along [v1] and [tv1] along [v2]
    from [origin], as the array of points stores it. *)
Definition grid_point (origin v1 v2 : Vec3) (tv0 tv1 : float) : Vec3 :=
  let coordinate (c : Vec3 -> float) : float :=
    round32 (c origin + tv0 * c v1 + tv1 * c v2)%float in
  mkVec3 (coordinate item0) (coordinate item1) (coordinate item2).

(** [Update()]: the centre and the normal are computed from the two
    edges; when these span no plane an error is logged and the output is
    left as it is; otherwise the output is the grid of [(XResolution + 1)
    * (YResolution + 1)] points, row after row from [Origin]. *)
Definition Update (p : vtkPlaneSource) : vtkPlaneSource :=
  let v1 := Axis1 p in
  let v2 := Axis2 p in
  let '(ok, p) := UpdatePlane v1 v2 p in
  if ok then
    mkPlaneSource (Center p) (Normal p) (XResolution p) (YResolution p)
      (Origin p) (Point1 p) (Point2 p)
      (mkPolyData
         (flat_map
            (fun i =>
               map (fun j =>
                      grid_point (Origin p) v1 v2
                        (float_of_nat j / float_of_nat (XResolution p))%float
                        (float_of_nat i / float_of_nat (YResolution p))%float)
                   (seq 0 (S (XResolution p))))
            (seq 0 (S (YResolution p)))))
  else p.

Definition GetOutput (p : vtkPlaneSource) : vtkPolyData := Output p.

(** *** Nodes of the MRML scene *)

Record vtkMRMLModelDisplayNode := mkDisplayNode {
  Color : Vec3;
  Opacity : float;
  SliceIntersectionVisibility : bool;
  LineWidth : float
}.

(** A model node with its display node.  Every node [createPlane] adds is
    given one (line 184) before its properties are set, and a node it
    finds is used as one that has it (lines 189-193). *)
Record vtkMRMLModelNode := mkModelNode {
  Name : string;
  PolyData : option vtkPolyData;
  DisplayNode : vtkMRMLModelDisplayNode
}.

(** The display properties of a display node made by the host. *)
Definition default_display : vtkMRMLModelDisplayNode :=
  mkDisplayNode (mkVec3 0.5 0.5 0.5) 1 false 1.

(** A list of landmarks. *)
Record vtkMRMLMarkupsFiducialNode := mkMarkups {
  ControlPoints : list Vec3
}.

(** A segmentation: an opaque handle. *)
Record vtkMRMLSegmentationNode := mkSegmentation {
  SegmentationID : string
}.

(** *** Widgets *)

Record QLabel := mkLabel { text : string; styleSheet : string }.

(** What the host does for the callback, in the order it happens.  The
    last two kinds mark the two computations of lines 146 and 152-160. *)
Inductive event :=
| PositionRead (pos : Vec3)
| NodeAdded (name : string)
| PolyDataSet (name : string) (data : vtkPolyData)
| TextSet (s : string)
| StyleSheetSet (s : string)
| DifferenceComputed (diff : float)
| RiskClassified (risk : string).

(** The widget with the scene it works on.  A selector is given by its
    current node.  [mrmlScene] lists, in the order of the scene, the nodes
    [createPlane] looks up by name and writes to, the model nodes of
    [slicer.mrmlScene]; several may have one name.  The segmentation and
    the lists of landmarks are the values the selectors hold.  [history]
    is the record of events, oldest first: it is there to state in which
    order the steps of a run happen. *)
Record Widget := mkWidget {
  segmentationSelector : option vtkMRMLSegmentationNode;
  boneSelector : option vtkMRMLMarkupsFiducialNode;
  nerveSelector : option vtkMRMLMarkupsFiducialNode;
  resultsLabel : QLabel;
  mrmlScene : list vtkMRMLModelNode;
  history : list event
}.

(** ** The callback's effects *)

(** A computation reads and changes the widget and its scene. *)
Definition M (A : Type) : Type := Widget -> A * Widget.

#[export] Instance M_ret : MRet M := fun A x w => (x, w).
#[export] Instance M_bind : MBind M :=
  fun A B f c w => let '(x, w') := c w in f x w'.

Definition exec {A} (c : M A) (w : Widget) : Widget := snd (c w).

Definition with_label (l : QLabel) (w : Widget) : Widget :=
  mkWidget (segmentationSelector w) (boneSelector w) (nerveSelector w)
           l (mrmlScene w) (history w).

Definition with_scene (s : list vtkMRMLModelNode) (w : Widget) : Widget :=
  mkWidget (segmentationSelector w) (boneSelector w) (nerveSelector w)
           (resultsLabel w) s (history w).

(** The event [e] happens now. *)
Definition record (e : event) : M unit :=
  fun w =>
    (tt, mkWidget (segmentationSelector w) (boneSelector w) (nerveSelector w)
                  (resultsLabel w) (mrmlScene w) (history w ++ [e])).

(** [selector.currentNode()] *)
Definition currentNode {A} (selector : Widget -> option A) : M (option A) :=
  fun w => (selector w, w).

(** [self.resultsLabel.text = s] *)
Definition set_text (s : string) : M unit :=
  fun w => record (TextSet s)
             (with_label (mkLabel s (styleSheet (resultsLabel w))) w).

(** [self.resultsLabel.setStyleSheet(s)] *)
Definition setStyleSheet (s : string) : M unit :=
  fun w => record (StyleSheetSet s)
             (with_label (mkLabel (text (resultsLabel w)) s) w).

Definition GetNumberOfControlPoints (node : vtkMRMLMarkupsFiducialNode) : nat :=
  length (ControlPoints node).

(** [node.GetNthControlPointPosition(n, pos)] fills [pos] with the
    position of control point [n]; the callback asks for it only after it
    has checked that the point exists. *)
Definition GetNthControlPointPosition
    (node : vtkMRMLMarkupsFiducialNode) (n : nat) (pos : Vec3) : M Vec3 :=
  let pos' := default pos (ControlPoints node !! n) in
  _ ← record (PositionRead pos'); mret pos'.

(** A reference to a node of the scene: its place in [mrmlScene]. *)
Abbreviation node_ref := nat.

(** [slicer.mrmlScene.GetFirstNodeByName(name)]: the first node of that
    name, or [None]. *)
Definition GetFirstNodeByName (name : string) : M (option node_ref) :=
  fun w => (fst <$> list_find (fun n => Name n = name) (mrmlScene w), w).

(** [slicer.mrmlScene.AddNewNodeByClass("vtkMRMLModelNode", name)]: a
    new node at the end of the scene, without geometry. *)
Definition AddNewNodeByClass (name : string) : M node_ref :=
  fun w =>
    let node := mkModelNode name None default_display in
    (length (mrmlScene w),
     snd (record (NodeAdded name) (with_scene (mrmlScene w ++ [node]) w))).

(** [modelNode.CreateDefaultDisplayNodes()]: a node that has its display
    node keeps it. *)
Definition CreateDefaultDisplayNodes (r : node_ref) : M unit :=
  fun w => (tt, w).

Definition update_node (r : node_ref)
    (f : vtkMRMLModelNode -> vtkMRMLModelNode) : M unit :=
  fun w => (tt, with_scene (alter f r (mrmlScene w)) w).

Definition node_name (r : node_ref) (w : Widget) : string :=
  from_option Name "" (mrmlScene w !! r).

(** [modelNode.SetAndObservePolyData(data)] *)
Definition SetAndObservePolyData (r : node_ref) (data : vtkPolyData) : M unit :=
  fun w =>
    (_ ← update_node r (fun n => mkModelNode (Name n) (Some data) (DisplayNode n));
     record (PolyDataSet (node_name r w) data)) w.

(** [modelNode.GetDisplayNode()] and the setters of the display node. *)
Definition update_display (r : node_ref)
    (f : vtkMRMLModelDisplayNode -> vtkMRMLModelDisplayNode) : M unit :=
  update_node r (fun n => mkModelNode (Name n) (PolyData n) (f (DisplayNode n))).

Definition SetColor (r : node_ref) (c : Vec3) : M unit :=
  update_display r (fun d =>
    mkDisplayNode c (Opacity d) (SliceIntersectionVisibility d) (LineWidth d)).

Definition SetOpacity (r : node_ref) (o : float) : M unit :=
  update_display r (fun d =>
    mkDisplayNode (Color d) o (SliceIntersectionVisibility d) (LineWidth d)).

Definition SetSliceIntersectionVisibility (r : node_ref) (b : bool) : M unit :=
  update_display r (fun d =>
    mkDisplayNode (Color d) (Opacity d) b (LineWidth d)).

Definition SetLineWidth (r : node_ref) (l : float) : M unit :=
  update_display r (fun d =>
    mkDisplayNode (Color d) (Opacity d) (SliceIntersectionVisibility d) l).

(** ** [MolarAnalyzerWidget.createPlane] *)

Definition size : float := 60.0.

(** Lines 167-178: the plane source of a centre.  [SetNormal] is called
    on a source whose normal is the direction asked for, the case in which
    it returns the source as it is. *)
Definition planeSource_of (center : Vec3) : vtkPlaneSource :=
  let planeSource := vtkPlaneSource_new in
  let planeSource := SetCenter (item0 center) (item1 center) (item2 center) planeSource in
  let planeSource := default planeSource (SetNormal 0 0 1 planeSource) in
  let planeSource := SetXResolution 1 planeSource in
  let planeSource := SetYResolution 1 planeSource in
  let planeSource :=
    SetOrigin (item0 center - size) (item1 center - size) (item2 center) planeSource in
  let planeSource :=
    SetPoint1 (item0 center + size) (item1 center - size) (item2 center) planeSource in
  let planeSource :=
    SetPoint2 (item0 center - size) (item1 center + size) (item2 center) planeSource in
  let planeSource := Update planeSource in
  planeSource.

Definition createPlane (name : string) (center color : Vec3) : M unit :=
  let planeSource := planeSource_of center in
  modelNode ← GetFirstNodeByName name;
  modelNode ←
    match modelNode with
    | Some r => mret r
    | None =>
        r ← AddNewNodeByClass name;
        _ ← CreateDefaultDisplayNodes r;
        mret r
    end;
  _ ← SetAndObservePolyData modelNode (GetOutput planeSource);
  let displayNode := modelNode in
  _ ← SetColor displayNode color;
  _ ← SetOpacity displayNode 0.3;
  _ ← SetSliceIntersectionVisibility displayNode true;
  SetLineWidth displayNode 3.

(** ** [MolarAnalyzerWidget.onApplyButton] *)

(** Line 146. *)
Definition difference (pos_bone pos_nerve : Vec3) : float :=
  abs (item2 pos_bone - item2 pos_nerve).

Definition selection_error : string :=
  "Error: Please select Segmentation, Bone Point, and Nerve Point!".
Definition selection_error_style : string :=
  "background-color: #ffcccc; color: red; font-weight: bold;".
Definition points_error : string :=
  "Error: Place points on the image first!".

(** Line 162. *)
Definition result_text (diff : float) (risk_class : string) : string :=
  "Surgical Depth: " ++ format_2f diff ++ " mm" ++ LF
    ++ "Prediction: " ++ risk_class.

(** Line 163. *)
Definition result_style (color : string) : string :=
  "background-color: " ++ color
    ++ "; font-weight: bold; padding: 10px; border: 2px solid black;".

Definition onApplyButton : M unit :=
  (* 1. Validation *)
  segNode ← currentNode segmentationSelector;
  boneNode ← currentNode boneSelector;
  nerveNode ← currentNode nerveSelector;
  match segNode, boneNode, nerveNode with
  | Some _, Some boneNode, Some nerveNode =>
      (* 2. Get Coordinates *)
      let pos_bone := mkVec3 0 0 0 in
      let pos_nerve := mkVec3 0 0 0 in
      if (GetNumberOfControlPoints boneNode <? 1)%nat
         || (GetNumberOfControlPoints nerveNode <? 1)%nat
      then set_text points_error
      else
        pos_bone ← GetNthControlPointPosition boneNode 0 pos_bone;
        pos_nerve ← GetNthControlPointPosition nerveNode 0 pos_nerve;
        (* 3. Create Visualization Planes *)
        _ ← createPlane "Amber_Line_Plane" pos_bone (mkVec3 1 0.6 0);
        _ ← createPlane "Red_Line_Plane" pos_nerve (mkVec3 1 0 0);
        (* 4. Calculation *)
        let diff := difference pos_bone pos_nerve in
        _ ← record (DifferenceComputed diff);
        let '(risk_class, color) := classify diff in
        _ ← record (RiskClassified risk_class);
        _ ← set_text (result_text diff risk_class);
        setStyleSheet (result_style color)
  | _, _, _ =>
      _ ← set_text selection_error;
      setStyleSheet selection_error_style
  end.

(** ** Notions the properties are stated with *)

(** The node [createPlane] leaves in place of [n]: the geometry [data],
    the colour of the caller, and the fixed display properties. *)
Definition installed (data : vtkPolyData) (color : Vec3)
    (n : vtkMRMLModelNode) : vtkMRMLModelNode :=
  mkModelNode (Name n) (Some data) (mkDisplayNode color 0.3 true 3).

(** The first node of a scene that has the name [name]. *)
Definition first_named (name : string) (scene : list vtkMRMLModelNode)
    : option (nat * vtkMRMLModelNode) :=
  list_find (fun n => Name n = name) scene.

(** The number of nodes of a scene that have the name [name]. *)
Definition count_named (name : string) (scene : list vtkMRMLModelNode) : nat :=
  length (filter (fun n => Name n = name) scene).

(** The widget with the two landmark selections exchanged. *)
Definition swap_landmarks (w : Widget) : Widget :=
  mkWidget (segmentationSelector w) (nerveSelector w) (boneSelector w)
           (resultsLabel w) (mrmlScene w) (history w).

(** The three selections are made. *)
Definition selections_made (w : Widget) : bool :=
  match segmentationSelector w, boneSelector w, nerveSelector w with
  | Some _, Some _, Some _ => true
  | _, _, _ => false
  end.

(** The first control point of a selected list of landmarks. *)
Definition first_point (selector : option vtkMRMLMarkupsFiducialNode)
    : option Vec3 :=
  node ← selector; ControlPoints node !! 0.

(** The events of one run of the callback from [w]. *)
Definition run_events (w : Widget) : list event :=
  drop (length (history w)) (history (exec onApplyButton w)).

Definition is_read (e : event) : bool :=
  match e with PositionRead _ => true | _ => false end.
Definition is_difference (e : event) : bool :=
  match e with DifferenceComputed _ => true | _ => false end.
Definition is_classification (e : event) : bool :=
  match e with RiskClassified _ => true | _ => false end.
Definition is_surface (e : event) : bool :=
  match e with NodeAdded _ | PolyDataSet _ _ => true | _ => false end.

(** Every event of kind [P] happens before every event of kind [Q]. *)
Definition precedes (P Q : event -> bool) (h : list event) : Prop :=
  forall i j e e',
    h !! i = Some e -> h !! j = Some e' ->
    P e = true -> Q e' = true -> i < j.

(** The order of the steps the specification states: read, difference,
    tier, surfaces. *)
Definition stated_order (h : list event) : Prop :=
  precedes is_read is_difference h
  /\ precedes is_difference is_classification h
  /\ precedes is_classification is_surface h.

(** The order of the steps of lines 137-163: read, surfaces, difference,
    tier. *)
Definition source_order (h : list event) : Prop :=
  precedes is_read is_surface h
  /\ precedes is_surface is_difference h
  /\ precedes is_difference is_classification h.

(** The colours of lines 141 and 142. *)
Definition amber : Vec3 := mkVec3 1 0.6 0.
Definition red : Vec3 := mkVec3 1 0 0.

(** The widget once lines 137-142 have run: the two positions are read
    and the two planes are drawn. *)
Definition planes_drawn (pos_bone pos_nerve : Vec3) (w : Widget) : Widget :=
  exec (createPlane "Red_Line_Plane" pos_nerve red)
    (exec (createPlane "Amber_Line_Plane" pos_bone amber)
       (exec (record (PositionRead pos_nerve))
          (exec (record (PositionRead pos_bone)) w))).

(** The events of one call of [createPlane] on a scene. *)
Definition plane_events (name : string) (center : Vec3)
    (scene : list vtkMRMLModelNode) : list event :=
  let data := GetOutput (planeSource_of center) in
  match first_named name scene with
  | Some _ => [PolyDataSet name data]
  | None => [NodeAdded name; PolyDataSet name data]
  end.

(** An event of kind [P] happens. *)
Definition happens (P : event -> bool) (h : list event) : Prop :=
  exists e, In e h /\ P e = true.

(** A widget with the three selections made, one landmark in each list,
    an empty scene and the label of [setup]. *)
Definition sample_widget : Widget :=
  mkWidget (Some (mkSegmentation "Segmentation"))
           (Some (mkMarkups [mkVec3 1 2 3.5]))
           (Some (mkMarkups [mkVec3 4 5 0.25]))
           (mkLabel "Ready for Analysis"
              "border: 1px solid gray; padding: 10px; background-color: #f0f0f0;")
           [] [].

(** The widget after a run that succeeded, once the user has removed the
    landmarks of the bone list. *)
Definition sample_without_points : Widget :=
  let w := exec onApplyButton sample_widget in
  mkWidget (segmentationSelector w) (Some (mkMarkups [])) (nerveSelector w)
           (resultsLabel w) (mrmlScene w) (history w).

(** ** Notions the geometry of the planes is stated with *)






(** *** Coordinates at which the arithmetic is exact *)








(** ** Notions the further properties are stated with *)

(** The tiers from the most to the least complex. *)
Definition tier_rank (t : tier) : nat :=
  match t with high => 0 | moderate => 1 | low => 2 end.

(** The sign a float is written with: [None] for the NaN. *)
Definition sign_of (d : float) : option bool :=
  match Prim2SF d with
  | S754_nan => None
  | S754_zero s | S754_infinity s | S754_finite s _ _ => Some s
  end.

(** A widget whose two landmarks have the same height. *)
Definition sample_level : Widget :=
  mkWidget (Some (mkSegmentation "Segmentation"))
           (Some (mkMarkups [mkVec3 1 2 7.5]))
           (Some (mkMarkups [mkVec3 4 5 7.5]))
           (mkLabel "Ready for Analysis" "") [] [].

(** A widget whose bone landmark has a height that is not a number. *)
Definition sample_nan : Widget :=
  mkWidget (Some (mkSegmentation "Segmentation"))
           (Some (mkMarkups [mkVec3 1 2 nan]))
           (Some (mkMarkups [mkVec3 4 5 0.25]))
           (mkLabel "Ready for Analysis" "") [] [].

(** The scene [createPlane] leaves: the first node of the name is changed
    in place, or a node is added at the end. *)
Definition drawn (name : string) (center color : Vec3)
    (scene : list vtkMRMLModelNode) : list vtkMRMLModelNode :=
  let data := GetOutput (planeSource_of center) in
  match first_named name scene with
  | Some (i, _) => alter (installed data color) i scene
  | None =>
      (scene ++ [installed data color
                   (mkModelNode name None default_display)])%list
  end.

(** The two nodes a run adds to a scene that has neither plane. *)
Definition amber_plane (pos_bone : Vec3) : vtkMRMLModelNode :=
  mkModelNode "Amber_Line_Plane" (Some (GetOutput (planeSource_of pos_bone)))
              (mkDisplayNode amber 0.3 true 3).

Definition red_plane (pos_nerve : Vec3) : vtkMRMLModelNode :=
  mkModelNode "Red_Line_Plane" (Some (GetOutput (planeSource_of pos_nerve)))
              (mkDisplayNode red 0.3 true 3).

(** A scene with a model of the user, a stale amber plane before it and a
    second node of that name after it. *)
Definition sample_scene : list vtkMRMLModelNode :=
  [mkModelNode "Amber_Line_Plane" None default_display;
   mkModelNode "Mandible" None default_display;
   mkModelNode "Amber_Line_Plane" None default_display].

Definition sample_with_scene : Widget :=
  mkWidget (segmentationSelector sample_widget) (boneSelector sample_widget)
           (nerveSelector sample_widget) (resultsLabel sample_widget)
           sample_scene [].

(** The sample widget with another segmentation, further landmarks after
    the first of each list, and another text in the label. *)
Definition sample_variant : Widget :=
  mkWidget (Some (mkSegmentation "Another segmentation"))
           (Some (mkMarkups [mkVec3 1 2 3.5; mkVec3 0 0 100]))
           (Some (mkMarkups [mkVec3 4 5 0.25; mkVec3 9 9 9; mkVec3 7 7 7]))
           (mkLabel "Surgical Depth: 9.00 mm"
              (styleSheet (resultsLabel sample_widget)))
           [] [PositionRead (mkVec3 0 0 0)].

(** ** [MolarAnalyzerWidget.updateSegmentList] *)

(** A [qt.QComboBox]: its items, each a text with its user data, and the
    index of the current item, -1 when there is none. *)
Record QComboBox := mkComboBox {
  items : list (string * string);
  currentIndex : Z
}.

(** [clear()] *)
Definition clear (cb : QComboBox) : QComboBox := mkComboBox [] (-1).

(** [addItem(text, userData)]: the item goes to the end; the first item
    of an empty box becomes the current one. *)
Definition addItem (text userData : string) (cb : QComboBox) : QComboBox :=
  mkComboBox (items cb ++ [(text, userData)])
             (match items cb with
              | [] => 0
              | _ :: _ => currentIndex cb
              end).

(** [setCurrentIndex(i)], what a choice of the user does; an index that
    is out of range leaves no current item. *)
Definition setCurrentIndex (i : Z) (cb : QComboBox) : QComboBox :=
  mkComboBox (items cb)
             (if (0 <=? i)%Z && (i <? Z.of_nat (length (items cb)))%Z
              then i else (-1)%Z).

(** [findData(data)]: the index of the first item with that user data,
    or -1. *)
Definition findData (data : string) (cb : QComboBox) : Z :=
  match list_find (fun item => snd item = data) (items cb) with
  | Some (i, _) => Z.of_nat i
  | None => (-1)%Z
  end.

(** [currentText()] and [currentData()] *)
Definition currentItem (cb : QComboBox) : option (string * string) :=
  if (currentIndex cb <? 0)%Z then None
  else items cb !! Z.to_nat (currentIndex cb).

(** Lines 104-115, on [self.segmentSelector]. *)
Definition updateSegmentList (segmentSelector : QComboBox) : QComboBox :=
  let segmentSelector := clear segmentSelector in
  let segmentSelector := addItem "Select Tooth..." "None" segmentSelector in
  let segmentSelector := addItem "Lower Left Wisdom (38)" "38" segmentSelector in
  let segmentSelector := addItem "Lower Right Wisdom (48)" "48" segmentSelector in
  let segmentSelector := addItem "Mandible (Bone)" "mandible" segmentSelector in
  let segmentSelector := addItem "Inferior Alveolar Nerve" "nerve" segmentSelector in
  segmentSelector.

(** * Properties *)

#[local] Open Scope list_scope.

(** The plane source of a centre is a long computation on floats: the
    proofs that do not depend on its value keep it folded. *)
#[local] Opaque planeSource_of.

(** ** The binary64 operations *)

Lemma SF_compare_antisym (x y : spec_float) :
  SFcompare y x = CompOpp <$> SFcompare x y.
Proof.
  destruct x as [sx|sx| |sx mx ex], y as [sy|sy| |sy my ey]; simpl;
    try reflexivity; try (destruct sx; reflexivity);
    try (destruct sy; reflexivity); try (destruct sx, sy; reflexivity).
  pose proof (Pos.compare_cont_antisym mx my Eq) as Hm. simpl in Hm.
  destruct sx, sy; simpl; try reflexivity;
    rewrite (Z.compare_antisym ex ey), <- Hm;
    destruct (ex ?= ey)%Z; simpl; try reflexivity;
    destruct (Pos.compare_cont Eq mx my); reflexivity.
Qed.

Lemma SF_compare_number (x y : spec_float) :
  SF_is_number x = true -> SF_is_number y = true -> is_Some (SFcompare x y).
Proof. destruct x, y; simpl; intros; try discriminate; eauto. Qed.

Lemma SF_compare_refl (x : spec_float) :
  SF_is_number x = true -> SFcompare x x = Some Eq.
Proof.
  destruct x as [s|s| |s m e]; simpl; intros H; try discriminate;
    try (destruct s; reflexivity).
  rewrite Z.compare_refl, Pos.compare_cont_refl. destruct s; reflexivity.
Qed.

Lemma SF_leb_ltb (x y : spec_float) : SFleb x y = true -> SFltb y x = false.
Proof.
  unfold SFleb, SFltb. rewrite (SF_compare_antisym x y).
  destruct (SFcompare x y) as [[]|]; simpl; congruence.
Qed.

Lemma SF_ltb_false_leb (x y : spec_float) :
  SF_is_number x = true -> SF_is_number y = true ->
  SFltb y x = false -> SFleb x y = true.
Proof.
  intros Hx Hy. unfold SFleb, SFltb. rewrite (SF_compare_antisym x y).
  destruct (SF_compare_number x y Hx Hy) as [c ->]. destruct c; simpl; congruence.
Qed.

(** Below 2.0 is below 5.0. *)
Lemma SF_ltb_two_five (x : spec_float) :
  SFltb x (Prim2SF 2.0) = true -> SFltb x (Prim2SF 5.0) = true.
Proof.
  change (Prim2SF 2.0) with (S754_finite false 4503599627370496 (-51)).
  change (Prim2SF 5.0) with (S754_finite false 5629499534213120 (-50)).
  destruct x as [s|s| |s m e]; unfold SFltb, SFcompare.
  - destruct s; intros; reflexivity.
  - destruct s; intros H; [reflexivity|discriminate H].
  - intros H; discriminate H.
  - destruct s; [intros; reflexivity|].
    destruct (Z.compare_spec e (-51)), (Z.compare_spec e (-50));
      try lia; intros H'; try reflexivity; try discriminate H'.
Qed.

(** The sign given to a rounding is the sign of its result, and
    nothing more. *)
Lemma SF_abs_binary_round_aux prec emax (s s' : bool) mx ex lx :
  SFabs (binary_round_aux prec emax s mx ex lx)
  = SFabs (binary_round_aux prec emax s' mx ex lx).
Proof.
  unfold binary_round_aux.
  destruct (shr_fexp prec emax mx ex lx) as [mrs e'].
  destruct (shr_fexp prec emax _ e' loc_Exact) as [mrs' e''].
  destruct (shr_m mrs'); try reflexivity.
  destruct (Z.leb e'' (emax - prec)); reflexivity.
Qed.

Lemma SF_abs_binary_normalize_opp prec emax (m e : Z) :
  SFabs (binary_normalize prec emax (- m) e false)
  = SFabs (binary_normalize prec emax m e false).
Proof.
  destruct m; simpl; try reflexivity; unfold binary_round;
    destruct (shl_align _ _ _); apply SF_abs_binary_round_aux.
Qed.

Lemma SF_abs_sub_comm prec emax (x y : spec_float) :
  SFabs (SFsub prec emax x y) = SFabs (SFsub prec emax y x).
Proof.
  destruct x as [sx|sx| |sx mx ex], y as [sy|sy| |sy my ey]; simpl;
    try reflexivity; try (destruct sx, sy; reflexivity).
  rewrite (Z.min_comm ey ex), <- SF_abs_binary_normalize_opp.
  f_equal. f_equal. lia.
Qed.

Lemma SF_sub_diag prec emax (x : spec_float) :
  SF_is_finite x = true -> SFsub prec emax x x = S754_zero false.
Proof.
  destruct x as [s|s| |s m e]; simpl; intros H; try discriminate.
  - destruct s; reflexivity.
  - rewrite Z.sub_diag. reflexivity.
Qed.

Lemma ltb_leb_false (x y : float) :
  (x <=? y)%float = true -> (y <? x)%float = false.
Proof. rewrite leb_spec, ltb_spec. apply SF_leb_ltb. Qed.

Lemma ltb_false_leb (x y : float) :
  is_number x = true -> is_number y = true ->
  (y <? x)%float = false -> (x <=? y)%float = true.
Proof. rewrite leb_spec, ltb_spec. apply SF_ltb_false_leb. Qed.

Lemma ltb_two_five (d : float) :
  (d <? 2.0)%float = true -> (d <? 5.0)%float = true.
Proof. rewrite !ltb_spec. apply SF_ltb_two_five. Qed.

Lemma abs_sub_comm (a b : float) : abs (a - b) = abs (b - a).
Proof.
  apply Prim2SF_inj. rewrite !abs_spec, !sub_spec.
  apply SF_abs_sub_comm.
Qed.

Lemma sub_diag (z : float) : is_real z = true -> (z - z)%float = 0%float.
Proof.
  intros H. apply Prim2SF_inj. rewrite sub_spec.
  unfold SF64sub. rewrite SF_sub_diag by exact H. reflexivity.
Qed.

Lemma tier_label_inj (t t' : tier) : tier_label t = tier_label t' -> t = t'.
Proof. destruct t, t'; simpl; intros H; try reflexivity; discriminate H. Qed.

Lemma classify_in_tier (d : float) (t : tier) :
  in_tier d t -> classify d = (tier_label t, tier_color t).
Proof.
  unfold classify. destruct t; simpl.
  - intros ->. reflexivity.
  - intros [H2 H5]. rewrite (ltb_leb_false _ _ H2), H5. reflexivity.
  - intros H5. pose proof (ltb_leb_false _ _ H5) as H5'.
    destruct (d <? 2)%float eqn:H2.
    + rewrite (ltb_two_five _ H2) in H5'. discriminate.
    + rewrite H5'. reflexivity.
Qed.

Lemma in_tier_total (d : float) :
  is_number d = true -> exists t, in_tier d t.
Proof.
  intros Hd.
  destruct (d <? 2)%float eqn:H2; [exists high; exact H2|].
  destruct (d <? 5)%float eqn:H5.
  - exists moderate. split; [|exact H5]. now apply ltb_false_leb.
  - exists low. now apply ltb_false_leb.
Qed.

(** ** C1: the three tiers *)

(** C1. For every difference [d], the classification of lines 152-160
    assigns the tier of the specification: high when d < 2.0, moderate when
    2.0 <= d < 5.0, low when d >= 5.0.  Every [d] that is a number lies in
    exactly one of the three intervals, so it is assigned exactly one tier;
    2.0 is classified moderate and 5.0 low. *)
Theorem classify_tiers (d : float) :
  (forall t, in_tier d t ->
     risk_class d = tier_label t /\ color_of d = tier_color t)
  /\ (is_number d = true ->
      exists t, in_tier d t
                /\ forall t', in_tier d t' <-> t' = t)
  /\ risk_class 2.0 = tier_label moderate
  /\ risk_class 5.0 = tier_label low.
Proof.
  split; [|split; [|split; reflexivity]].
  - intros t Ht. unfold risk_class, color_of.
    rewrite (classify_in_tier d t Ht). split; reflexivity.
  - intros Hd. destruct (in_tier_total d Hd) as [t Ht].
    exists t. split; [exact Ht|]. intros t'. split; [|intros ->; exact Ht].
    intros Ht'. apply tier_label_inj.
    pose proof (classify_in_tier d t Ht) as E.
    rewrite (classify_in_tier d t' Ht') in E. congruence.
Qed.

Lemma classify_tiers_witness :
  in_tier 3.25 moderate
  /\ risk_class 3.25 = tier_label moderate
  /\ is_number 3.25 = true.
Proof.
  split; [split; reflexivity|]. split; [|reflexivity].
  apply (proj1 (classify_tiers 3.25) moderate). split; reflexivity.
Defined.

(** ** Running computations *)

Lemma exec_bind {A B} (c : M A) (k : A -> M B) (w : Widget) :
  exec (x ← c; k x) w = exec (k (fst (c w))) (exec c w).
Proof. unfold exec, mbind, M_bind. destruct (c w); reflexivity. Qed.

Lemma exec_record (e : event) (w : Widget) :
  exec (record e) w
  = mkWidget (segmentationSelector w) (boneSelector w) (nerveSelector w)
             (resultsLabel w) (mrmlScene w) (history w ++ [e]).
Proof. reflexivity. Qed.

Lemma exec_set_text (s : string) (w : Widget) :
  exec (set_text s) w
  = mkWidget (segmentationSelector w) (boneSelector w) (nerveSelector w)
             (mkLabel s (styleSheet (resultsLabel w))) (mrmlScene w)
             (history w ++ [TextSet s]).
Proof. reflexivity. Qed.

Lemma exec_setStyleSheet (s : string) (w : Widget) :
  exec (setStyleSheet s) w
  = mkWidget (segmentationSelector w) (boneSelector w) (nerveSelector w)
             (mkLabel (text (resultsLabel w)) s) (mrmlScene w)
             (history w ++ [StyleSheetSet s]).
Proof. reflexivity. Qed.

Lemma first_named_Some name scene i n :
  first_named name scene = Some (i, n) ->
  scene !! i = Some n /\ Name n = name.
Proof. unfold first_named. intros H. apply list_find_Some in H. tauto. Qed.

(** ** What [createPlane] does to the widget and the scene *)

Lemma createPlane_exec name center color w :
  exec (createPlane name center color) w =
  let data := GetOutput (planeSource_of center) in
  match first_named name (mrmlScene w) with
  | Some (i, n) =>
      mkWidget (segmentationSelector w) (boneSelector w) (nerveSelector w)
               (resultsLabel w)
               (alter (installed data color) i (mrmlScene w))
               (history w ++ [PolyDataSet name data])
  | None =>
      mkWidget (segmentationSelector w) (boneSelector w) (nerveSelector w)
               (resultsLabel w)
               (mrmlScene w
                  ++ [installed data color (mkModelNode name None default_display)])
               (history w ++ [NodeAdded name; PolyDataSet name data])
  end.
Proof.
  destruct w as [sg bn nv lb sc h].
  unfold createPlane, exec, mbind, M_bind, GetFirstNodeByName, first_named,
    SetAndObservePolyData, SetColor, SetOpacity, SetSliceIntersectionVisibility,
    SetLineWidth, update_display, update_node, record, with_scene, node_name,
    AddNewNodeByClass, CreateDefaultDisplayNodes, mret, M_ret.
  cbv zeta. generalize (GetOutput (planeSource_of center)). intros data.
  cbn.
  destruct (list_find _ sc) as [[i n]|] eqn:E; cbn; unfold mbind, M_bind; cbn.
  - apply first_named_Some in E as [Ei En]. rewrite Ei. cbn. rewrite En.
    rewrite !list_alter_alter_eq. reflexivity.
  - rewrite lookup_app_r by lia. rewrite Nat.sub_diag. cbn.
    rewrite <- (Nat.add_0_r (length sc)). rewrite !alter_app_r. cbn.
    rewrite <- app_assoc. reflexivity.
Qed.

(** ** The three paths of [onApplyButton] *)

Lemma fst_GetNth node n pos w :
  fst (GetNthControlPointPosition node n pos w)
  = default pos (ControlPoints node !! n).
Proof. reflexivity. Qed.

Lemma exec_GetNth node n pos w :
  exec (GetNthControlPointPosition node n pos) w
  = exec (record (PositionRead (default pos (ControlPoints node !! n)))) w.
Proof. reflexivity. Qed.

Ltac fields :=
  cbn [fst snd segmentationSelector boneSelector nerveSelector resultsLabel
       mrmlScene history text styleSheet].

(** The path of lines 137-163. *)
Lemma onApplyButton_success w pb pn :
  selections_made w = true ->
  first_point (boneSelector w) = Some pb ->
  first_point (nerveSelector w) = Some pn ->
  exec onApplyButton w =
  let d := difference pb pn in
  let w' := planes_drawn pb pn w in
  mkWidget (segmentationSelector w) (boneSelector w) (nerveSelector w)
           (mkLabel (result_text d (risk_class d)) (result_style (color_of d)))
           (mrmlScene w')
           (history w' ++ [DifferenceComputed d; RiskClassified (risk_class d);
                           TextSet (result_text d (risk_class d));
                           StyleSheetSet (result_style (color_of d))]).
Proof.
  destruct w as [[sg|] [[bcp]|] [[ncp]|] lb sc h]; try discriminate.
  intros _. cbn. destruct bcp as [|b bs]; [discriminate|].
  destruct ncp as [|n ns]; [discriminate|]. cbn. intros [= ->] [= ->].
  unfold onApplyButton. rewrite !exec_bind.
  cbn [currentNode fst exec snd segmentationSelector boneSelector nerveSelector
       GetNumberOfControlPoints ControlPoints length Nat.ltb Nat.leb orb].
  rewrite (exec_bind (GetNthControlPointPosition _ _ _)), fst_GetNth, exec_GetNth.
  rewrite (exec_bind (GetNthControlPointPosition _ _ _)), fst_GetNth, exec_GetNth.
  cbn [ControlPoints lookup list_lookup from_option id].
  rewrite !exec_bind. cbv beta.
  unfold risk_class, color_of, planes_drawn, difference, amber, red.
  destruct (classify _) as [r c].
  rewrite !exec_bind, exec_setStyleSheet, exec_set_text, !exec_record.
  fields. rewrite !createPlane_exec. cbv zeta.
  repeat match goal with
         | |- context [first_named ?n ?s] =>
             destruct (first_named n s) as [[? ?]|]
         end;
    fields; rewrite <- ?app_assoc; reflexivity.
Qed.

(** The path of lines 123-126. *)
Lemma onApplyButton_no_selection w :
  selections_made w = false ->
  exec onApplyButton w =
  mkWidget (segmentationSelector w) (boneSelector w) (nerveSelector w)
           (mkLabel selection_error selection_error_style)
           (mrmlScene w)
           (history w ++ [TextSet selection_error;
                          StyleSheetSet selection_error_style]).
Proof.
  destruct w as [[sg|] [bn|] [nv|] lb sc h]; try discriminate; intros _;
    unfold onApplyButton, exec, mbind, M_bind, currentNode, set_text,
      setStyleSheet, record, with_label;
    cbn; rewrite <- ?app_assoc; reflexivity.
Qed.

(** The path of lines 133-135. *)
Lemma onApplyButton_no_points w :
  selections_made w = true ->
  first_point (boneSelector w) = None \/ first_point (nerveSelector w) = None ->
  exec onApplyButton w =
  mkWidget (segmentationSelector w) (boneSelector w) (nerveSelector w)
           (mkLabel points_error (styleSheet (resultsLabel w)))
           (mrmlScene w)
           (history w ++ [TextSet points_error]).
Proof.
  destruct w as [[sg|] [[bcp]|] [[ncp]|] lb sc h]; try discriminate.
  intros _. cbn. destruct bcp as [|b bs], ncp as [|n ns]; cbn;
    intros [H|H]; try discriminate H;
    unfold onApplyButton, exec, mbind, M_bind, currentNode, set_text,
      record, with_label; reflexivity.
Qed.

(** ** Scenes: the first node of a name *)

Section Scenes.

Variable name : string.
Variable f : vtkMRMLModelNode -> vtkMRMLModelNode.
Hypothesis f_name : forall x, Name (f x) = Name x.

Lemma first_named_alter_same scene i n :
  first_named name scene = Some (i, n) ->
  first_named name (alter f i scene) = Some (i, f n).
Proof.
  unfold first_named. rewrite !list_find_Some.
  intros (Hi & Hn & Hlt). split; [|split].
  - rewrite list_lookup_alter_eq, Hi. reflexivity.
  - rewrite f_name. exact Hn.
  - intros j y Hj Hji. rewrite list_lookup_alter_ne in Hj by lia. eauto.
Qed.

Lemma first_named_alter_other scene i j n m :
  first_named name scene = Some (i, n) ->
  scene !! j = Some m -> Name m <> name ->
  first_named name (alter f j scene) = Some (i, n).
Proof.
  unfold first_named. rewrite !list_find_Some.
  intros (Hi & Hn & Hlt) Hj Hm.
  assert (j <> i) by (intros ->; congruence).
  split; [|split; [exact Hn|]].
  - rewrite list_lookup_alter_ne by done. exact Hi.
  - intros k y Hk Hki. rewrite list_lookup_alter in Hk.
    destruct (decide (j = k)) as [->|]; [|eauto].
    rewrite Hj in Hk. injection Hk as <-. rewrite f_name. exact Hm.
Qed.

Lemma count_named_alter scene i :
  count_named name (alter f i scene) = count_named name scene.
Proof.
  unfold count_named. revert i.
  induction scene as [|x scene IH]; intros [|i]; try reflexivity.
  - cbn [alter list_alter]. rewrite !filter_cons, f_name.
    destruct (decide (Name x = name)); reflexivity.
  - change (alter f (S i) (x :: scene)) with (x :: alter f i scene).
    rewrite !filter_cons.
    destruct (decide (Name x = name)); cbn [length]; rewrite IH; reflexivity.
Qed.

End Scenes.

Lemma first_named_app_new name scene n :
  first_named name scene = None -> Name n = name ->
  first_named name (scene ++ [n]) = Some (length scene, n).
Proof.
  unfold first_named. intros Hnone Hn.
  rewrite list_find_app_r by exact Hnone.
  cbn. rewrite decide_True by exact Hn. reflexivity.
Qed.

Lemma first_named_app_old name scene scene' i n :
  first_named name scene = Some (i, n) ->
  first_named name (scene ++ scene') = Some (i, n).
Proof. apply list_find_app_l. Qed.

Lemma count_named_app name scene scene' :
  count_named name (scene ++ scene')
  = count_named name scene + count_named name scene'.
Proof. unfold count_named. rewrite list.filter_app, length_app. reflexivity. Qed.

Lemma count_named_None name scene :
  first_named name scene = None -> count_named name scene = 0.
Proof.
  unfold first_named, count_named. rewrite list_find_None.
  induction 1 as [|x l Hx _ IH]; [reflexivity|].
  rewrite filter_cons, decide_False by exact Hx. exact IH.
Qed.

Lemma count_named_Some name scene i n :
  first_named name scene = Some (i, n) -> 1 <= count_named name scene.
Proof.
  intros H. apply first_named_Some in H as [Hi Hn].
  apply list_elem_of_lookup_2 in Hi.
  assert (Hin : n ∈ filter (fun x => Name x = name) scene)
    by (apply list_elem_of_filter; split; assumption).
  unfold count_named. destruct (filter _ scene); [|cbn; lia].
  inversion Hin.
Qed.

(** ** The scene after [createPlane] *)

Lemma installed_name data color n : Name (installed data color n) = Name n.
Proof. reflexivity. Qed.

Lemma scene_createPlane name center color w :
  mrmlScene (exec (createPlane name center color) w) =
  let data := GetOutput (planeSource_of center) in
  match first_named name (mrmlScene w) with
  | Some (i, _) => alter (installed data color) i (mrmlScene w)
  | None =>
      (mrmlScene w
         ++ [installed data color (mkModelNode name None default_display)])%list
  end.
Proof.
  rewrite createPlane_exec. cbv zeta.
  destruct (first_named name (mrmlScene w)) as [[i n]|]; reflexivity.
Qed.

(** The plane is the first node of its name, whether found or added. *)
Lemma first_named_createPlane name center color w :
  exists i n,
    first_named name (mrmlScene (exec (createPlane name center color) w))
    = Some (i, installed (GetOutput (planeSource_of center)) color n).
Proof.
  rewrite scene_createPlane. cbv zeta.
  destruct (first_named name (mrmlScene w)) as [[i n]|] eqn:E.
  - exists i, n. apply first_named_alter_same; [apply installed_name|exact E].
  - eexists _, _. apply first_named_app_new; [exact E|reflexivity].
Qed.


Lemma count_named_createPlane name center color w :
  count_named name (mrmlScene (exec (createPlane name center color) w))
  = Nat.max 1 (count_named name (mrmlScene w)).
Proof.
  rewrite scene_createPlane. cbv zeta.
  destruct (first_named name (mrmlScene w)) as [[i n]|] eqn:E.
  - rewrite count_named_alter by apply installed_name.
    apply count_named_Some in E. lia.
  - rewrite count_named_app, (count_named_None _ _ E).
    unfold count_named. rewrite filter_cons, decide_True by reflexivity.
    reflexivity.
Qed.

Lemma length_createPlane name center color w :
  length (mrmlScene (exec (createPlane name center color) w))
  = match first_named name (mrmlScene w) with
    | Some _ => length (mrmlScene w)
    | None => S (length (mrmlScene w))
    end.
Proof.
  rewrite scene_createPlane. cbv zeta.
  destruct (first_named name (mrmlScene w)) as [[i n]|].
  - apply length_alter.
  - rewrite length_app. cbn. lia.
Qed.

Lemma count_named_createPlane_other name name' center color w :
  name' <> name ->
  count_named name (mrmlScene (exec (createPlane name' center color) w))
  = count_named name (mrmlScene w).
Proof.
  intros Hne. rewrite scene_createPlane. cbv zeta.
  destruct (first_named name' (mrmlScene w)) as [[i n]|] eqn:E.
  - apply count_named_alter, installed_name.
  - rewrite count_named_app. unfold count_named at 2.
    rewrite filter_cons, decide_False by exact Hne. cbn. lia.
Qed.

Lemma count_named_createPlane_le name name' center color w :
  count_named name (mrmlScene (exec (createPlane name' center color) w))
  <= Nat.max 1 (count_named name (mrmlScene w)).
Proof.
  destruct (decide (name' = name)) as [->|Hne].
  - rewrite count_named_createPlane. lia.
  - rewrite count_named_createPlane_other by exact Hne. lia.
Qed.

(** One run of the callback adds no second node of a name. *)
Lemma count_named_onApplyButton name w :
  count_named name (mrmlScene (exec onApplyButton w))
  <= Nat.max 1 (count_named name (mrmlScene w)).
Proof.
  destruct (selections_made w) eqn:Hs.
  - destruct (first_point (boneSelector w)) as [pb|] eqn:Hb;
      [destruct (first_point (nerveSelector w)) as [pn|] eqn:Hn|].
    + rewrite (onApplyButton_success w pb pn Hs Hb Hn). cbv zeta. fields.
      unfold planes_drawn.
      etransitivity; [apply count_named_createPlane_le|].
      pose proof (count_named_createPlane_le name "Amber_Line_Plane" pb amber
                    (exec (record (PositionRead pn))
                       (exec (record (PositionRead pb)) w))) as H.
      change (mrmlScene (exec (record _) (exec (record _) w)))
        with (mrmlScene w) in H.
      lia.
    + rewrite (onApplyButton_no_points w Hs (or_intror Hn)). fields. lia.
    + rewrite (onApplyButton_no_points w Hs (or_introl Hb)). fields. lia.
  - rewrite (onApplyButton_no_selection w Hs). fields. lia.
Qed.

Lemma count_named_runs name w k :
  count_named name (mrmlScene (Nat.iter k (exec onApplyButton) w))
  <= Nat.max 1 (count_named name (mrmlScene w)).
Proof.
  induction k as [|k IH]; [cbn; lia|]. rewrite Nat.iter_succ.
  etransitivity; [apply count_named_onApplyButton|]. lia.
Qed.

(** ** C6: a plane is updated in place *)

(** C6. For every plane name, [createPlane] on a scene that has a node of
    that name changes the first such node in place: the scene keeps its
    length, the node keeps its place and its name and gets the new
    geometry, and every other node is what it was.  A node is added, at
    the end, exactly when the scene has no node of that name.  So the
    number of nodes of that name is what it was, or one if it was zero,
    a second call adds nothing, and no number of runs of the callback
    brings the number of nodes of that name above that. *)
Theorem createPlane_in_place (name : string) (center color : Vec3) (w : Widget) :
  let data := GetOutput (planeSource_of center) in
  let scene := mrmlScene w in
  let scene' := mrmlScene (exec (createPlane name center color) w) in
  (forall i n,
      first_named name scene = Some (i, n) ->
      length scene' = length scene
      /\ scene' !! i = Some (installed data color n)
      /\ Name (installed data color n) = name
      /\ PolyData (installed data color n) = Some data
      /\ forall j, j <> i -> scene' !! j = scene !! j)
  /\ (first_named name scene = None ->
      scene' = (scene ++ [installed data color
                            (mkModelNode name None default_display)])%list)
  /\ (length scene' = S (length scene) <-> first_named name scene = None)
  /\ count_named name scene' = Nat.max 1 (count_named name scene)
  /\ length (mrmlScene (exec (createPlane name center color)
                          (exec (createPlane name center color) w)))
     = length scene'
  /\ forall k,
       count_named name (mrmlScene (Nat.iter k (exec onApplyButton) w))
       <= Nat.max 1 (count_named name scene).
Proof.
  cbv zeta. split; [|split; [|split; [|split; [|split]]]].
  - intros i n E. rewrite scene_createPlane, E. cbv zeta.
    apply first_named_Some in E as [Hi Hn].
    split; [apply length_alter|]. split.
    { rewrite list_lookup_alter_eq, Hi. reflexivity. }
    split; [exact Hn|]. split; [reflexivity|].
    intros j Hj. apply list_lookup_alter_ne. congruence.
  - intros E. rewrite scene_createPlane, E. reflexivity.
  - rewrite length_createPlane.
    destruct (first_named name (mrmlScene w)) as [[i n]|]; split;
      intros H; try reflexivity; try discriminate H; lia.
  - apply count_named_createPlane.
  - rewrite (length_createPlane name center color (exec _ w)).
    destruct (first_named_createPlane name center color w) as (i & n & ->).
    reflexivity.
  - apply count_named_runs.
Qed.

(** ** The plane source of [createPlane] *)

#[local] Transparent planeSource_of.







(** [SetNormal] on a source that has the normal asked for. *)
Lemma SetNormal_same (p : vtkPlaneSource) :
  Normal p = mkVec3 0 0 1 -> SetNormal 0 0 1 p = Some p.
Proof. intros H. unfold SetNormal, Dot. rewrite H. reflexivity. Qed.

(** The call of line 169: [SetNormal] returns the source as it is. *)
Lemma SetNormal_createPlane (x y z : float) :
  let p := SetCenter x y z vtkPlaneSource_new in
  SetNormal 0 0 1 p = Some p.
Proof.
  cbv zeta. apply SetNormal_same. unfold SetCenter.
  destruct (Vec3_eqb _ _); reflexivity.
Qed.







(** *** Centres at which the arithmetic is exact *)










(** ** C7: the rectangle [createPlane] builds *)





(** ** C5: the heights of the planes *)




#[local] Opaque planeSource_of.

(** ** The events of a run *)

Lemma history_createPlane name center color w :
  history (exec (createPlane name center color) w)
  = history w ++ plane_events name center (mrmlScene w).
Proof.
  rewrite createPlane_exec. unfold plane_events. cbv zeta.
  destruct (first_named name (mrmlScene w)) as [[i n]|]; reflexivity.
Qed.

Lemma plane_events_surface name center scene :
  Forall (fun e => is_surface e = true) (plane_events name center scene).
Proof.
  unfold plane_events. destruct (first_named name scene);
    repeat constructor.
Qed.

Lemma plane_events_happen name center scene :
  happens is_surface (plane_events name center scene).
Proof.
  exists (PolyDataSet name (GetOutput (planeSource_of center))).
  split; [|reflexivity].
  unfold plane_events. destruct (first_named name scene); cbn; auto.
Qed.

(** The events of the path of lines 137-163, in their order. *)
Lemma run_events_success w pb pn :
  selections_made w = true ->
  first_point (boneSelector w) = Some pb ->
  first_point (nerveSelector w) = Some pn ->
  let d := difference pb pn in
  run_events w =
  [PositionRead pb; PositionRead pn]
    ++ (plane_events "Amber_Line_Plane" pb (mrmlScene w)
        ++ plane_events "Red_Line_Plane" pn
             (mrmlScene (exec (createPlane "Amber_Line_Plane" pb amber) w)))
    ++ [DifferenceComputed d; RiskClassified (risk_class d);
        TextSet (result_text d (risk_class d));
        StyleSheetSet (result_style (color_of d))].
Proof.
  intros Hs Hb Hn. cbv zeta. unfold run_events.
  rewrite (onApplyButton_success w pb pn Hs Hb Hn). cbv zeta. fields.
  unfold planes_drawn. rewrite !history_createPlane, !exec_record.
  rewrite !scene_createPlane. fields.
  rewrite <- !app_assoc. rewrite drop_app_length. reflexivity.
Qed.

Lemma run_events_no_selection w :
  selections_made w = false ->
  run_events w = [TextSet selection_error; StyleSheetSet selection_error_style].
Proof.
  intros Hs. unfold run_events. rewrite (onApplyButton_no_selection w Hs).
  fields. apply drop_app_length.
Qed.

Lemma run_events_no_points w :
  selections_made w = true ->
  first_point (boneSelector w) = None \/ first_point (nerveSelector w) = None ->
  run_events w = [TextSet points_error].
Proof.
  intros Hs Hp. unfold run_events. rewrite (onApplyButton_no_points w Hs Hp).
  fields. apply drop_app_length.
Qed.

Lemma not_happens (P : event -> bool) (h : list event) :
  Forall (fun e => P e = false) h -> ~ happens P h.
Proof.
  intros HF (e & He & HP). rewrite Forall_forall in HF.
  rewrite (HF e He) in HP. discriminate.
Qed.

Lemma precedes_app (P Q : event -> bool) (h1 h2 : list event) :
  Forall (fun e => Q e = false) h1 ->
  Forall (fun e => P e = false) h2 ->
  precedes P Q (h1 ++ h2).
Proof.
  intros H1 H2 i j e e' Hi Hj HP HQ.
  rewrite Forall_lookup in H1. rewrite Forall_lookup in H2.
  destruct (decide (i < length h1)) as [Hlt|Hge].
  - destruct (decide (j < length h1)) as [Hj1|]; [|lia].
    rewrite lookup_app_l in Hj by exact Hj1.
    rewrite (H1 _ _ Hj) in HQ. discriminate.
  - rewrite lookup_app_r in Hi by lia.
    rewrite (H2 _ _ Hi) in HP. discriminate.
Qed.

Lemma Forall_surface_not (P : event -> bool) (h : list event) :
  (forall e, is_surface e = true -> P e = false) ->
  Forall (fun e => is_surface e = true) h ->
  Forall (fun e => P e = false) h.
Proof. intros HP. apply Forall_impl. exact HP. Qed.

(** ** C2: the difference that is classified *)

(** C2. For every pair of landmark points, the one difference a run
    computes, classifies and shows is the absolute value of the
    difference of their third components. *)
Theorem difference_is_abs_z (w : Widget) (bone nerve : Vec3) :
  selections_made w = true ->
  first_point (boneSelector w) = Some bone ->
  first_point (nerveSelector w) = Some nerve ->
  let d := abs (item2 bone - item2 nerve) in
  difference bone nerve = d
  /\ (forall d', In (DifferenceComputed d') (run_events w) <-> d' = d)
  /\ (forall r, In (RiskClassified r) (run_events w) <-> r = risk_class d)
  /\ resultsLabel (exec onApplyButton w)
     = mkLabel (result_text d (risk_class d)) (result_style (color_of d)).
Proof.
  intros Hs Hb Hn. cbv zeta. split; [reflexivity|].
  rewrite (run_events_success w bone nerve Hs Hb Hn). cbv zeta.
  change (difference bone nerve) with (abs (item2 bone - item2 nerve)).
  set (d := abs (item2 bone - item2 nerve)).
  set (planes := plane_events _ _ _ ++ plane_events _ _ _).
  assert (Hplanes : Forall (fun e => is_surface e = true) planes)
    by (apply Forall_app; split; apply plane_events_surface).
  rewrite Forall_forall in Hplanes.
  split; [|split].
  - intros d'. rewrite !in_app_iff. split.
    + intros [H|[H|H]].
      * cbn in H. intuition discriminate.
      * apply Hplanes in H. discriminate.
      * cbn in H. destruct H as [H|[H|[H|[H|[]]]]]; try discriminate H.
        injection H as <-. reflexivity.
    + intros ->. right. right. left. reflexivity.
  - intros r. rewrite !in_app_iff. split.
    + intros [H|[H|H]].
      * cbn in H. intuition discriminate.
      * apply Hplanes in H. discriminate.
      * cbn in H. destruct H as [H|[H|[H|[H|[]]]]]; try discriminate H.
        injection H as <-. reflexivity.
    + intros ->. right. right. right. left. reflexivity.
  - rewrite (onApplyButton_success w bone nerve Hs Hb Hn). reflexivity.
Qed.

Lemma difference_is_abs_z_witness :
  resultsLabel (exec onApplyButton sample_widget)
  = mkLabel (result_text 3.25 "MODERATE COMPLEXITY (Amber)")
            (result_style "#fff4cc").
Proof.
  exact (proj2 (proj2 (proj2
    (difference_is_abs_z sample_widget (mkVec3 1 2 3.5) (mkVec3 4 5 0.25)
       eq_refl eq_refl eq_refl)))).
Defined.

(** ** C3 and C4: the two validation failures *)

Lemma selections_missing w :
  segmentationSelector w = None \/ boneSelector w = None
  \/ nerveSelector w = None ->
  selections_made w = false.
Proof.
  unfold selections_made. intros [-> | [-> | ->]];
    repeat (match goal with |- context [match ?x with _ => _ end] =>
              destruct x end); reflexivity.
Qed.

(** C3. If one of the three selections is missing, the callback shows the
    selection error in the status label and returns: the scene is what it
    was, and the only events of the run are the two writes to the label,
    so no difference is computed, no tier is assigned and no plane is
    created or updated. *)
Theorem missing_selection_is_reported (w : Widget) :
  segmentationSelector w = None \/ boneSelector w = None
  \/ nerveSelector w = None ->
  let w' := exec onApplyButton w in
  text (resultsLabel w') = selection_error
  /\ mrmlScene w' = mrmlScene w
  /\ run_events w
     = [TextSet selection_error; StyleSheetSet selection_error_style]
  /\ ~ happens is_difference (run_events w)
  /\ ~ happens is_classification (run_events w)
  /\ ~ happens is_surface (run_events w).
Proof.
  intros H. apply selections_missing in H. cbv zeta.
  rewrite (run_events_no_selection w H), (onApplyButton_no_selection w H).
  fields. repeat split; apply not_happens; repeat constructor.
Qed.

Lemma missing_selection_is_reported_witness :
  text (resultsLabel (exec onApplyButton
          (mkWidget None (boneSelector sample_widget)
             (nerveSelector sample_widget) (resultsLabel sample_widget)
             [] [])))
  = selection_error.
Proof.
  exact (proj1 (missing_selection_is_reported
                  (mkWidget None (boneSelector sample_widget)
                     (nerveSelector sample_widget)
                     (resultsLabel sample_widget) [] [])
                  (or_introl eq_refl))).
Defined.

Lemma points_missing w seg bone nerve :
  segmentationSelector w = Some seg ->
  boneSelector w = Some bone ->
  nerveSelector w = Some nerve ->
  GetNumberOfControlPoints bone = 0 \/ GetNumberOfControlPoints nerve = 0 ->
  selections_made w = true
  /\ (first_point (boneSelector w) = None
      \/ first_point (nerveSelector w) = None).
Proof.
  unfold selections_made, GetNumberOfControlPoints.
  intros -> -> -> H. split; [reflexivity|]. cbn.
  destruct H as [H|H]; [left|right];
    apply length_zero_iff_nil in H; rewrite H; reflexivity.
Qed.

(** C4. If the three selections are made and one of the two lists of
    landmarks has no control point, the callback shows the points error in
    the status label and returns: the scene is what it was, and the only
    event of the run is the write of the label's text, so no plane is
    created or updated and no difference is computed. *)
Theorem missing_points_are_reported
    (w : Widget) (seg : vtkMRMLSegmentationNode)
    (bone nerve : vtkMRMLMarkupsFiducialNode) :
  segmentationSelector w = Some seg ->
  boneSelector w = Some bone ->
  nerveSelector w = Some nerve ->
  GetNumberOfControlPoints bone = 0 \/ GetNumberOfControlPoints nerve = 0 ->
  let w' := exec onApplyButton w in
  text (resultsLabel w') = points_error
  /\ mrmlScene w' = mrmlScene w
  /\ run_events w = [TextSet points_error]
  /\ ~ happens is_difference (run_events w)
  /\ ~ happens is_classification (run_events w)
  /\ ~ happens is_surface (run_events w).
Proof.
  intros Hseg Hb Hn H.
  destruct (points_missing w seg bone nerve Hseg Hb Hn H) as [Hs Hp].
  cbv zeta.
  rewrite (run_events_no_points w Hs Hp), (onApplyButton_no_points w Hs Hp).
  fields. repeat split; apply not_happens; repeat constructor.
Qed.

Lemma missing_points_are_reported_witness :
  text (resultsLabel (exec onApplyButton sample_without_points))
  = points_error
  /\ mrmlScene (exec onApplyButton sample_without_points)
     = mrmlScene sample_without_points.
Proof.
  pose proof (missing_points_are_reported sample_without_points
                (mkSegmentation "Segmentation") (mkMarkups [])
                (mkMarkups [mkVec3 4 5 0.25])
                eq_refl eq_refl eq_refl (or_introl eq_refl)) as H.
  split; [exact (proj1 H)|exact (proj1 (proj2 H))].
Defined.

(** ** C10: what the two failures write to the label *)

(** C10. A run that misses a selection sets the text of the status label
    and its style sheet, the red error style; a run that misses a landmark
    sets the text only: the style sheet of the label is the one it had
    before the run, and no style sheet is set during the run. *)
Theorem failures_differ_in_style (w : Widget) :
  (selections_made w = false ->
   resultsLabel (exec onApplyButton w)
   = mkLabel selection_error selection_error_style
   /\ In (StyleSheetSet selection_error_style) (run_events w))
  /\ (selections_made w = true ->
      first_point (boneSelector w) = None
      \/ first_point (nerveSelector w) = None ->
      resultsLabel (exec onApplyButton w)
      = mkLabel points_error (styleSheet (resultsLabel w))
      /\ forall s, ~ In (StyleSheetSet s) (run_events w)).
Proof.
  split.
  - intros Hs.
    rewrite (run_events_no_selection w Hs), (onApplyButton_no_selection w Hs).
    fields. split; [reflexivity|]. right. left. reflexivity.
  - intros Hs Hp.
    rewrite (run_events_no_points w Hs Hp), (onApplyButton_no_points w Hs Hp).
    fields. split; [reflexivity|]. intros s [H|[]]. discriminate H.
Qed.

(** After a run that succeeded, a run that misses a landmark keeps the
    style of the success under the text of the error. *)
Lemma failures_differ_in_style_witness :
  resultsLabel (exec onApplyButton sample_without_points)
  = mkLabel points_error (result_style "#fff4cc")
  /\ resultsLabel (exec onApplyButton
                     (mkWidget None None None
                        (resultsLabel sample_without_points) [] []))
     = mkLabel selection_error selection_error_style.
Proof.
  split.
  - exact (proj1 (proj2 (failures_differ_in_style sample_without_points)
                    eq_refl (or_introl eq_refl))).
  - exact (proj1 (proj1 (failures_differ_in_style
                           (mkWidget None None None
                              (resultsLabel sample_without_points) [] []))
                    eq_refl)).
Defined.

(** ** C9: the two landmarks may be exchanged *)

Lemma difference_comm (a b : Vec3) : difference a b = difference b a.
Proof. apply abs_sub_comm. Qed.

(** C9. For every pair of points, the difference and its classification
    are the same when the two points are exchanged; and for every widget,
    the run with the bone and the nerve selections exchanged leaves the
    same text and style in the status label. *)
Theorem landmarks_are_symmetric (a b : Vec3) (w : Widget) :
  difference a b = difference b a
  /\ classify (difference a b) = classify (difference b a)
  /\ resultsLabel (exec onApplyButton (swap_landmarks w))
     = resultsLabel (exec onApplyButton w).
Proof.
  split; [apply difference_comm|]. split; [rewrite difference_comm; reflexivity|].
  assert (Hsel : selections_made (swap_landmarks w) = selections_made w).
  { destruct w as [[?|] [?|] [?|] ? ? ?]; reflexivity. }
  destruct (selections_made w) eqn:Hs.
  - destruct (first_point (boneSelector w)) as [pb|] eqn:Hb;
      [destruct (first_point (nerveSelector w)) as [pn|] eqn:Hn|].
    + rewrite (onApplyButton_success (swap_landmarks w) pn pb Hsel Hn Hb).
      rewrite (onApplyButton_success w pb pn Hs Hb Hn).
      cbv zeta. fields. rewrite (difference_comm pn pb). reflexivity.
    + rewrite (onApplyButton_no_points (swap_landmarks w) Hsel (or_introl Hn)).
      rewrite (onApplyButton_no_points w Hs (or_intror Hn)). reflexivity.
    + rewrite (onApplyButton_no_points (swap_landmarks w) Hsel (or_intror Hb)).
      rewrite (onApplyButton_no_points w Hs (or_introl Hb)). reflexivity.
  - rewrite (onApplyButton_no_selection (swap_landmarks w) Hsel).
    rewrite (onApplyButton_no_selection w Hs). reflexivity.
Qed.

(** ** C8: the order of the steps *)

Lemma run_events_sample :
  run_events sample_widget =
  [PositionRead (mkVec3 1 2 3.5); PositionRead (mkVec3 4 5 0.25);
   NodeAdded "Amber_Line_Plane";
   PolyDataSet "Amber_Line_Plane" (GetOutput (planeSource_of (mkVec3 1 2 3.5)));
   NodeAdded "Red_Line_Plane";
   PolyDataSet "Red_Line_Plane" (GetOutput (planeSource_of (mkVec3 4 5 0.25)));
   DifferenceComputed 3.25;
   RiskClassified "MODERATE COMPLEXITY (Amber)";
   TextSet (result_text 3.25 "MODERATE COMPLEXITY (Amber)");
   StyleSheetSet (result_style "#fff4cc")].
Proof. vm_compute. reflexivity. Qed.

(** C8, as stated, fails: in the run from the sample widget the first
    plane is added (the third event) before the tier is assigned (the
    eighth). *)
Lemma stated_order_fails : ~ stated_order (run_events sample_widget).
Proof.
  rewrite run_events_sample. intros (_ & _ & H).
  specialize (H 7 2 (RiskClassified "MODERATE COMPLEXITY (Amber)")
                (NodeAdded "Amber_Line_Plane")
                eq_refl eq_refl eq_refl eq_refl).
  lia.
Qed.

(** C8, amended. On every run that finds the three selections and a
    first point in each list of landmarks, the four steps all happen, in
    the order of the source: the two positions are read, then the two
    surfaces are created or updated, then the difference is computed, then
    it is given its tier. *)
Theorem steps_in_source_order (w : Widget) (pos_bone pos_nerve : Vec3) :
  selections_made w = true ->
  first_point (boneSelector w) = Some pos_bone ->
  first_point (nerveSelector w) = Some pos_nerve ->
  source_order (run_events w)
  /\ happens is_read (run_events w)
  /\ happens is_surface (run_events w)
  /\ happens is_difference (run_events w)
  /\ happens is_classification (run_events w).
Proof.
  intros Hs Hb Hn.
  rewrite (run_events_success w pos_bone pos_nerve Hs Hb Hn). cbv zeta.
  set (d := difference pos_bone pos_nerve).
  set (amber_events := plane_events "Amber_Line_Plane" _ _).
  set (red_events := plane_events "Red_Line_Plane" _ _).
  assert (Hplanes : Forall (fun e => is_surface e = true)
                      (amber_events ++ red_events))
    by (apply Forall_app; split; apply plane_events_surface).
  split; [split; [|split]|].
  - apply precedes_app; [repeat constructor|].
    apply Forall_app. split; [|repeat constructor].
    revert Hplanes. apply Forall_surface_not. intros []; cbn; congruence.
  - rewrite app_assoc. apply precedes_app; [|repeat constructor].
    apply Forall_app. split; [repeat constructor|].
    revert Hplanes. apply Forall_surface_not. intros []; cbn; congruence.
  - change [DifferenceComputed d; RiskClassified (risk_class d);
            TextSet (result_text d (risk_class d));
            StyleSheetSet (result_style (color_of d))]
      with ([DifferenceComputed d]
              ++ [RiskClassified (risk_class d);
                  TextSet (result_text d (risk_class d));
                  StyleSheetSet (result_style (color_of d))]).
    rewrite !app_assoc. apply precedes_app; [|repeat constructor].
    repeat (apply Forall_app; split); try (repeat constructor).
    + eapply Forall_surface_not; [|apply plane_events_surface].
      intros []; cbn; congruence.
    + eapply Forall_surface_not; [|apply plane_events_surface].
      intros []; cbn; congruence.
  - split; [|split; [|split]].
    + exists (PositionRead pos_bone). split; [left; reflexivity|reflexivity].
    + destruct (plane_events_happen "Amber_Line_Plane" pos_bone (mrmlScene w))
        as (e & He & Hsurf).
      exists e. split; [|exact Hsurf].
      apply in_app_iff. right. apply in_app_iff. left.
      apply in_app_iff. left. exact He.
    + exists (DifferenceComputed d). split; [|reflexivity].
      rewrite !in_app_iff. right. right. left. reflexivity.
    + exists (RiskClassified (risk_class d)). split; [|reflexivity].
      rewrite !in_app_iff. right. right. right. left. reflexivity.
Qed.

Lemma steps_in_source_order_witness :
  source_order (run_events sample_widget).
Proof.
  exact (proj1 (steps_in_source_order sample_widget
                  (mkVec3 1 2 3.5) (mkVec3 4 5 0.25)
                  eq_refl eq_refl eq_refl)).
Defined.

(** * Further properties *)

(** ** The order of binary64 numbers *)

Lemma SF_leb_ltb_trans (x y z : spec_float) :
  SFleb x y = true -> SFltb y z = true -> SFltb x z = true.
Proof.
  unfold SFleb, SFltb.
  destruct x as [sx|sx| |sx mx ex], y as [sy|sy| |sy my ey],
           z as [sz|sz| |sz mz ez]; cbn [SFcompare];
    try (intros H1 H2; discriminate H1 || discriminate H2);
    try (destruct sx; intros H1 H2; (discriminate H1 || discriminate H2 || reflexivity));
    try (destruct sy; intros H1 H2; (discriminate H1 || discriminate H2 || reflexivity));
    try (destruct sz; intros H1 H2; (discriminate H1 || discriminate H2 || reflexivity));
    try (destruct sx, sy; intros H1 H2; (discriminate H1 || discriminate H2 || reflexivity));
    try (destruct sy, sz; intros H1 H2; (discriminate H1 || discriminate H2 || reflexivity));
    try (destruct sx, sz; intros H1 H2; (discriminate H1 || discriminate H2 || reflexivity)).
  all: change (Pos.compare_cont Eq) with Pos.compare.
  all: destruct sx, sy, sz;
    try (intros H1 H2; (discriminate H1 || discriminate H2 || reflexivity)).
  all: destruct (Z.compare_spec ex ey); try (intros H1 H2; discriminate H1);
       destruct (Z.compare_spec ey ez); try (intros H1 H2; discriminate H2);
       destruct (Z.compare_spec ex ez); try lia;
       try (intros H1 H2; reflexivity).
  all: destruct (Pos.compare_spec mx my); cbn [CompOpp];
       try (intros H1 H2; discriminate H1);
       destruct (Pos.compare_spec my mz); cbn [CompOpp];
       try (intros H1 H2; discriminate H2);
       destruct (Pos.compare_spec mx mz); cbn [CompOpp]; try lia;
       try (intros H1 H2; reflexivity).
Qed.

Lemma leb_ltb_trans (x y z : float) :
  (x <=? y)%float = true -> (y <? z)%float = true -> (x <? z)%float = true.
Proof. rewrite leb_spec, !ltb_spec. apply SF_leb_ltb_trans. Qed.

Lemma SF_not_number (x : spec_float) :
  SF_is_number x = false -> x = S754_nan.
Proof. destruct x; simpl; intros H; try discriminate H; reflexivity. Qed.

Lemma ltb_nan_l (d c : float) :
  is_number d = false -> (d <? c)%float = false.
Proof.
  unfold is_number. intros H. rewrite ltb_spec, (SF_not_number _ H).
  reflexivity.
Qed.

Lemma SF_abs_sub_nan (prec emax : Z) (x y : spec_float) :
  SF_is_number x = false \/ SF_is_number y = false ->
  SFabs (SFsub prec emax x y) = S754_nan.
Proof.
  intros [H|H]; apply SF_not_number in H; subst; [reflexivity|].
  destruct x; reflexivity.
Qed.

Lemma abs_sub_nan (a b : float) :
  is_number a = false \/ is_number b = false -> abs (a - b) = nan.
Proof.
  intros H. apply Prim2SF_inj. rewrite abs_spec, sub_spec.
  unfold SF64sub. rewrite SF_abs_sub_nan by exact H. reflexivity.
Qed.

Lemma SF_abs_not_negative (x : spec_float) :
  SFltb (SFabs x) (S754_zero false) = false.
Proof. destruct x; reflexivity. Qed.

Lemma SF_eqb_sub (prec emax : Z) (x y : spec_float) :
  SF_is_finite x = true -> SFeqb x y = true ->
  SFabs (SFsub prec emax x y) = S754_zero false.
Proof.
  unfold SFeqb.
  destruct x as [sx|sx| |sx mx ex], y as [sy|sy| |sy my ey];
    cbn [SFcompare SF_is_finite]; intros Hx H; try discriminate;
    try (destruct sx; discriminate H); try (destruct sy; discriminate H).
  - destruct sx, sy; reflexivity.
  - assert (sx = sy /\ ex = ey /\ mx = my) as (-> & -> & ->).
    { change (Pos.compare_cont Eq) with Pos.compare in H.
      destruct sx, sy; try discriminate H;
        destruct (Z.compare_spec ex ey); try discriminate H;
        destruct (Pos.compare_spec mx my); try discriminate H; auto. }
    rewrite (SF_sub_diag prec emax (S754_finite sy my ey)) by reflexivity.
    reflexivity.
Qed.

Lemma abs_sub_eqb (a b : float) :
  is_real a = true -> (a =? b)%float = true -> abs (a - b) = 0%float.
Proof.
  intros Ha H. rewrite FloatAxioms.eqb_spec in H.
  apply Prim2SF_inj. rewrite abs_spec, sub_spec. unfold SF64sub.
  rewrite (SF_eqb_sub _ _ _ _ Ha H). reflexivity.
Qed.

(** ** X1: a larger difference is never classified as more complex *)

Lemma risk_class_high (d : float) (t : tier) :
  (d <? 2.0)%float = true -> risk_class d = tier_label t -> t = high.
Proof.
  unfold risk_class, classify. intros -> H. apply tier_label_inj.
  symmetry. exact H.
Qed.

Lemma risk_class_below_five (d : float) (t : tier) :
  (d <? 5.0)%float = true -> risk_class d = tier_label t -> tier_rank t <= 1.
Proof.
  unfold risk_class, classify. intros ->.
  destruct (d <? 2)%float; destruct t; cbn; intros H;
    try discriminate H; lia.
Qed.

(** X1. The classification is monotone: of two differences, the larger
    one is never given a tier of higher complexity than the smaller one. *)
Theorem classify_monotone (d1 d2 : float) (t1 t2 : tier) :
  (d1 <=? d2)%float = true ->
  risk_class d1 = tier_label t1 ->
  risk_class d2 = tier_label t2 ->
  tier_rank t1 <= tier_rank t2.
Proof.
  intros Hle H1 H2.
  destruct (d2 <? 2)%float eqn:E2.
  - rewrite (risk_class_high d2 t2 E2 H2).
    rewrite (risk_class_high d1 t1 (leb_ltb_trans _ _ _ Hle E2) H1). lia.
  - destruct (d2 <? 5)%float eqn:E5.
    + pose proof (risk_class_below_five d1 t1 (leb_ltb_trans _ _ _ Hle E5) H1).
      unfold risk_class, classify in H2. rewrite E2, E5 in H2.
      apply (tier_label_inj moderate t2) in H2. subst t2.
      cbn [tier_rank]. lia.
    + unfold risk_class, classify in H2. rewrite E2, E5 in H2.
      apply (tier_label_inj low t2) in H2. subst t2.
      destruct t1; cbn [tier_rank]; lia.
Qed.

Lemma classify_monotone_witness :
  tier_rank high <= tier_rank moderate.
Proof.
  exact (classify_monotone 1.5 3.25 high moderate eq_refl eq_refl eq_refl).
Defined.

(** ** X2: the difference is never negative *)

(** X2. The difference of line 146 is never below zero, and it is never
    written with a minus sign: its sign bit is clear, for a zero too. *)
Theorem difference_not_negative (pos_bone pos_nerve : Vec3) :
  (difference pos_bone pos_nerve <? 0)%float = false
  /\ sign_of (difference pos_bone pos_nerve) <> Some true.
Proof.
  unfold difference, sign_of. rewrite ltb_spec, abs_spec. split.
  - apply SF_abs_not_negative.
  - destruct (Prim2SF _); cbn; congruence.
Qed.

(** ** X3: landmarks at one height *)

(** X3. When the two landmarks have the same real height (in particular
    when one list of landmarks is selected for both), the run shows the
    depth 0.00 and the class of high complexity, on the light red ground. *)
Theorem level_landmarks_read_high (w : Widget) (pos_bone pos_nerve : Vec3) :
  selections_made w = true ->
  first_point (boneSelector w) = Some pos_bone ->
  first_point (nerveSelector w) = Some pos_nerve ->
  is_real (item2 pos_bone) = true ->
  (item2 pos_bone =? item2 pos_nerve)%float = true ->
  difference pos_bone pos_nerve = 0%float
  /\ resultsLabel (exec onApplyButton w)
     = mkLabel ("Surgical Depth: 0.00 mm" ++ LF
                  ++ "Prediction: HIGH COMPLEXITY (Red)")%string
               (result_style "#ffcccc").
Proof.
  intros Hs Hb Hn Hz Heq.
  assert (Hd : difference pos_bone pos_nerve = 0%float)
    by (apply abs_sub_eqb; assumption).
  split; [exact Hd|].
  rewrite (onApplyButton_success w pos_bone pos_nerve Hs Hb Hn).
  cbv zeta. fields. rewrite Hd. reflexivity.
Qed.

Lemma level_landmarks_read_high_witness :
  text (resultsLabel (exec onApplyButton sample_level))
  = ("Surgical Depth: 0.00 mm" ++ LF
       ++ "Prediction: HIGH COMPLEXITY (Red)")%string.
Proof.
  exact (f_equal text
           (proj2 (level_landmarks_read_high sample_level
                     (mkVec3 1 2 7.5) (mkVec3 4 5 7.5)
                     eq_refl eq_refl eq_refl eq_refl eq_refl))).
Defined.

(** ** X4: a height that is not a number *)

(** X4. A difference that is not a number passes both comparisons of
    lines 152 and 155 and is classified in the else branch: when the
    height of a landmark is not a number, the run shows the depth nan
    and the class of low complexity, on the light green ground. *)
Theorem nan_height_reads_low (w : Widget) (pos_bone pos_nerve : Vec3) :
  selections_made w = true ->
  first_point (boneSelector w) = Some pos_bone ->
  first_point (nerveSelector w) = Some pos_nerve ->
  is_number (item2 pos_bone) = false \/ is_number (item2 pos_nerve) = false ->
  difference pos_bone pos_nerve = nan
  /\ classify nan = (tier_label low, tier_color low)
  /\ resultsLabel (exec onApplyButton w)
     = mkLabel ("Surgical Depth: nan mm" ++ LF
                  ++ "Prediction: LOW COMPLEXITY (White)")%string
               (result_style "#ccffcc").
Proof.
  intros Hs Hb Hn Hz.
  assert (Hd : difference pos_bone pos_nerve = nan)
    by (apply abs_sub_nan; exact Hz).
  split; [exact Hd|]. split; [reflexivity|].
  rewrite (onApplyButton_success w pos_bone pos_nerve Hs Hb Hn).
  cbv zeta. fields. rewrite Hd. reflexivity.
Qed.

Lemma nan_height_reads_low_witness :
  text (resultsLabel (exec onApplyButton sample_nan))
  = ("Surgical Depth: nan mm" ++ LF
       ++ "Prediction: LOW COMPLEXITY (White)")%string.
Proof.
  exact (f_equal text
           (proj2 (proj2 (nan_height_reads_low sample_nan
                     (mkVec3 1 2 nan) (mkVec3 4 5 0.25)
                     eq_refl eq_refl eq_refl (or_introl eq_refl))))).
Defined.

(** ** Scenes after a run *)

Lemma scene_createPlane_drawn name center color w :
  mrmlScene (exec (createPlane name center color) w)
  = drawn name center color (mrmlScene w).
Proof. apply scene_createPlane. Qed.

Lemma scene_planes_drawn pb pn w :
  mrmlScene (planes_drawn pb pn w)
  = drawn "Red_Line_Plane" pn red (drawn "Amber_Line_Plane" pb amber (mrmlScene w)).
Proof.
  unfold planes_drawn. rewrite !scene_createPlane_drawn. reflexivity.
Qed.

Lemma first_named_drawn name center color scene :
  exists i n,
    first_named name (drawn name center color scene)
    = Some (i, installed (GetOutput (planeSource_of center)) color n).
Proof.
  unfold drawn. cbv zeta.
  destruct (first_named name scene) as [[i n]|] eqn:E.
  - exists i, n. apply first_named_alter_same; [apply installed_name|exact E].
  - eexists _, _. apply first_named_app_new; [exact E|reflexivity].
Qed.

Lemma first_named_drawn_other name name' center color scene i n :
  name' <> name ->
  first_named name scene = Some (i, n) ->
  first_named name (drawn name' center color scene) = Some (i, n).
Proof.
  intros Hne H. unfold drawn. cbv zeta.
  destruct (first_named name' scene) as [[j m]|] eqn:E.
  - apply first_named_Some in E as [Hj Hm].
    eapply first_named_alter_other; eauto using installed_name. congruence.
  - apply first_named_app_old, H.
Qed.

Lemma alter_fixed {A} (f : A -> A) (l : list A) (i : nat) (x : A) :
  l !! i = Some x -> f x = x -> alter f i l = l.
Proof.
  intros Hi Hx. apply list_eq. intros j. rewrite list_lookup_alter.
  destruct (decide (i = j)) as [<-|]; [|reflexivity].
  rewrite Hi. cbn. congruence.
Qed.

(** A scene whose first node of the name is the plane is left as it is. *)
Lemma drawn_fixed name center color scene i n :
  first_named name scene
  = Some (i, installed (GetOutput (planeSource_of center)) color n) ->
  drawn name center color scene = scene.
Proof.
  intros E. unfold drawn. cbv zeta. rewrite E.
  apply first_named_Some in E as [Hi _].
  eapply alter_fixed; [exact Hi|reflexivity].
Qed.

Lemma drawn_twice pb pn scene :
  let scene' := drawn "Red_Line_Plane" pn red
                  (drawn "Amber_Line_Plane" pb amber scene) in
  drawn "Red_Line_Plane" pn red (drawn "Amber_Line_Plane" pb amber scene')
  = scene'.
Proof.
  cbv zeta.
  destruct (first_named_drawn "Amber_Line_Plane" pb amber scene)
    as (i & n & Ea).
  pose proof (first_named_drawn_other "Amber_Line_Plane" "Red_Line_Plane"
                pn red _ i _ ltac:(discriminate) Ea) as Ea'.
  rewrite (drawn_fixed _ _ _ _ _ _ Ea').
  destruct (first_named_drawn "Red_Line_Plane" pn red
              (drawn "Amber_Line_Plane" pb amber scene)) as (j & m & Er).
  apply (drawn_fixed _ _ _ _ _ _ Er).
Qed.

Lemma selectors_kept (w : Widget) :
  segmentationSelector (exec onApplyButton w) = segmentationSelector w
  /\ boneSelector (exec onApplyButton w) = boneSelector w
  /\ nerveSelector (exec onApplyButton w) = nerveSelector w.
Proof.
  destruct (selections_made w) eqn:Hs.
  - destruct (first_point (boneSelector w)) as [pb|] eqn:Hb;
      [destruct (first_point (nerveSelector w)) as [pn|] eqn:Hn|].
    + rewrite (onApplyButton_success w pb pn Hs Hb Hn). repeat split.
    + rewrite (onApplyButton_no_points w Hs (or_intror Hn)). repeat split.
    + rewrite (onApplyButton_no_points w Hs (or_introl Hb)). repeat split.
  - rewrite (onApplyButton_no_selection w Hs). repeat split.
Qed.

(** ** X5: a second run changes nothing *)

(** X5. A run of the callback right after a run, with no change of the
    selections and landmarks in between, leaves the scene and the status
    label exactly as the first run left them: the planes are set to the
    geometry and display properties they have, and no node is added. *)
Theorem second_run_changes_nothing (w : Widget) :
  let w1 := exec onApplyButton w in
  let w2 := exec onApplyButton w1 in
  mrmlScene w2 = mrmlScene w1 /\ resultsLabel w2 = resultsLabel w1.
Proof.
  cbv zeta.
  destruct (selectors_kept w) as (Hseg & Hbone & Hnerve).
  assert (Hs' : selections_made (exec onApplyButton w) = selections_made w)
    by (unfold selections_made; rewrite Hseg, Hbone, Hnerve; reflexivity).
  destruct (selections_made w) eqn:Hs.
  - destruct (first_point (boneSelector w)) as [pb|] eqn:Hb;
      [destruct (first_point (nerveSelector w)) as [pn|] eqn:Hn|].
    + assert (Hb' : first_point (boneSelector (exec onApplyButton w)) = Some pb)
        by (rewrite Hbone; exact Hb).
      assert (Hn' : first_point (nerveSelector (exec onApplyButton w)) = Some pn)
        by (rewrite Hnerve; exact Hn).
      rewrite (onApplyButton_success _ pb pn Hs' Hb' Hn').
      cbv zeta. fields. rewrite scene_planes_drawn.
      rewrite (onApplyButton_success w pb pn Hs Hb Hn).
      cbv zeta. fields. rewrite scene_planes_drawn.
      split; [apply drawn_twice|reflexivity].
    + assert (Hn' : first_point (nerveSelector (exec onApplyButton w)) = None)
        by (rewrite Hnerve; exact Hn).
      rewrite (onApplyButton_no_points _ Hs' (or_intror Hn')).
      rewrite (onApplyButton_no_points w Hs (or_intror Hn)).
      split; reflexivity.
    + assert (Hb' : first_point (boneSelector (exec onApplyButton w)) = None)
        by (rewrite Hbone; exact Hb).
      rewrite (onApplyButton_no_points _ Hs' (or_introl Hb')).
      rewrite (onApplyButton_no_points w Hs (or_introl Hb)).
      split; reflexivity.
  - rewrite (onApplyButton_no_selection _ Hs').
    rewrite (onApplyButton_no_selection w Hs). split; reflexivity.
Qed.

(** ** X6: what a run leaves alone *)

Lemma drawn_keeps_places name center color scene j n :
  scene !! j = Some n ->
  exists n', drawn name center color scene !! j = Some n'
             /\ Name n' = Name n
             /\ (first_named name scene <> Some (j, n) -> n' = n).
Proof.
  intros Hj. unfold drawn. cbv zeta.
  destruct (first_named name scene) as [[i m]|] eqn:E.
  - destruct (decide (i = j)) as [->|Hne].
    + exists (installed (GetOutput (planeSource_of center)) color n).
      apply first_named_Some in E as [Hi _].
      assert (m = n) as -> by congruence.
      rewrite list_lookup_alter_eq, Hj. repeat split. congruence.
    + exists n. rewrite list_lookup_alter_ne by exact Hne. auto.
  - exists n. rewrite lookup_app_l by (eapply lookup_lt_Some; exact Hj). auto.
Qed.

Lemma scene_after_run (w : Widget) :
  mrmlScene (exec onApplyButton w) = mrmlScene w
  \/ exists pb pn,
      mrmlScene (exec onApplyButton w)
      = drawn "Red_Line_Plane" pn red
          (drawn "Amber_Line_Plane" pb amber (mrmlScene w)).
Proof.
  destruct (selections_made w) eqn:Hs.
  - destruct (first_point (boneSelector w)) as [pb|] eqn:Hb;
      [destruct (first_point (nerveSelector w)) as [pn|] eqn:Hn|].
    + right. exists pb, pn.
      rewrite (onApplyButton_success w pb pn Hs Hb Hn). cbv zeta. fields.
      apply scene_planes_drawn.
    + left. rewrite (onApplyButton_no_points w Hs (or_intror Hn)). reflexivity.
    + left. rewrite (onApplyButton_no_points w Hs (or_introl Hb)). reflexivity.
  - left. rewrite (onApplyButton_no_selection w Hs). reflexivity.
Qed.

(** X6. Whatever path a run takes, it keeps the three selections, it
    keeps every node of the scene in its place and under its name, and it
    keeps exactly as it is every node but the first node named
    Amber_Line_Plane and the first node named Red_Line_Plane: a node of
    another name is not touched, and neither is a second node of one of
    the two names.  Nodes are only added at the end, at most two. *)
Theorem run_leaves_the_rest (w : Widget) :
  let w' := exec onApplyButton w in
  segmentationSelector w' = segmentationSelector w
  /\ boneSelector w' = boneSelector w
  /\ nerveSelector w' = nerveSelector w
  /\ (forall j n, mrmlScene w !! j = Some n ->
        exists n', mrmlScene w' !! j = Some n' /\ Name n' = Name n)
  /\ (forall j n, mrmlScene w !! j = Some n ->
        first_named "Amber_Line_Plane" (mrmlScene w) <> Some (j, n) ->
        first_named "Red_Line_Plane" (mrmlScene w) <> Some (j, n) ->
        mrmlScene w' !! j = Some n)
  /\ length (mrmlScene w) <= length (mrmlScene w') <= length (mrmlScene w) + 2.
Proof.
  cbv zeta. destruct (selectors_kept w) as (Hseg & Hbone & Hnerve).
  split; [exact Hseg|]. split; [exact Hbone|]. split; [exact Hnerve|].
  destruct (scene_after_run w) as [-> | (pb & pn & ->)].
  - split; [eauto|]. split; [auto|]. lia.
  - split; [|split].
    + intros j n Hj.
      destruct (drawn_keeps_places "Amber_Line_Plane" pb amber _ j n Hj)
        as (n1 & Hj1 & Hn1 & _).
      destruct (drawn_keeps_places "Red_Line_Plane" pn red _ j n1 Hj1)
        as (n2 & Hj2 & Hn2 & _).
      exists n2. split; [exact Hj2|congruence].
    + intros j n Hj Ha Hr.
      destruct (drawn_keeps_places "Amber_Line_Plane" pb amber _ j n Hj)
        as (n1 & Hj1 & _ & Hsame).
      rewrite (Hsame Ha) in Hj1. clear Hsame.
      destruct (drawn_keeps_places "Red_Line_Plane" pn red _ j n Hj1)
        as (n2 & Hj2 & _ & Hsame).
      rewrite Hj2. f_equal. apply Hsame. intros E.
      destruct (first_named "Red_Line_Plane" (mrmlScene w))
        as [[k m]|] eqn:Er.
      * rewrite (first_named_drawn_other "Red_Line_Plane" "Amber_Line_Plane"
                   pb amber _ k m ltac:(discriminate) Er) in E.
        congruence.
      * apply first_named_Some in E as [_ En].
        unfold first_named in Er. rewrite list_find_None in Er.
        rewrite Forall_lookup in Er. exact (Er j n Hj En).
    + unfold drawn. cbv zeta.
      repeat match goal with
             | |- context [first_named ?a ?s] =>
                 destruct (first_named a s) as [[? ?]|]
             end;
        rewrite ?length_alter, ?length_app, ?length_alter; cbn [length]; lia.
Qed.

(** In the sample scene the run updates the first amber plane and leaves
    the model of the user and the second node of that name as they are. *)
Lemma run_leaves_the_rest_witness :
  mrmlScene (exec onApplyButton sample_with_scene) !! 1
  = Some (mkModelNode "Mandible" None default_display)
  /\ mrmlScene (exec onApplyButton sample_with_scene) !! 2
     = Some (mkModelNode "Amber_Line_Plane" None default_display).
Proof.
  pose proof (proj1 (proj2 (proj2 (proj2 (proj2
                (run_leaves_the_rest sample_with_scene)))))) as H.
  split.
  - apply (H 1); [reflexivity| |]; vm_compute; discriminate.
  - apply (H 2); [reflexivity| |]; vm_compute; discriminate.
Defined.

(** ** X7: the first run on a scene without planes *)

(** X7. On a scene that has no node named Amber_Line_Plane and none named
    Red_Line_Plane, a run that reads the two landmarks adds exactly two
    nodes at the end of the scene: the amber plane of the bone point,
    then the red plane of the nerve point, each with its geometry, its
    colour, the opacity 0.3, the slice intersection shown and the line
    width 3. *)
Theorem first_run_adds_two_planes (w : Widget) (pos_bone pos_nerve : Vec3) :
  selections_made w = true ->
  first_point (boneSelector w) = Some pos_bone ->
  first_point (nerveSelector w) = Some pos_nerve ->
  first_named "Amber_Line_Plane" (mrmlScene w) = None ->
  first_named "Red_Line_Plane" (mrmlScene w) = None ->
  mrmlScene (exec onApplyButton w)
  = mrmlScene w ++ [amber_plane pos_bone; red_plane pos_nerve].
Proof.
  intros Hs Hb Hn Ha Hr.
  rewrite (onApplyButton_success w pos_bone pos_nerve Hs Hb Hn).
  cbv zeta. fields. rewrite scene_planes_drawn.
  unfold drawn at 2. cbv zeta. rewrite Ha.
  unfold drawn. cbv zeta.
  assert (Hr' : first_named "Red_Line_Plane"
                  (mrmlScene w
                     ++ [installed (GetOutput (planeSource_of pos_bone)) amber
                           (mkModelNode "Amber_Line_Plane" None default_display)])
                = None).
  { unfold first_named in *. apply list_find_app_None. split; [exact Hr|].
    reflexivity. }
  rewrite Hr'. rewrite <- app_assoc. reflexivity.
Qed.

Lemma first_run_adds_two_planes_witness :
  mrmlScene (exec onApplyButton sample_widget)
  = [amber_plane (mkVec3 1 2 3.5); red_plane (mkVec3 4 5 0.25)].
Proof.
  exact (first_run_adds_two_planes sample_widget
           (mkVec3 1 2 3.5) (mkVec3 4 5 0.25)
           eq_refl eq_refl eq_refl eq_refl eq_refl).
Defined.

(** ** X8: what the outcome of a run depends on *)

(** X8. The outcome of a run depends only on whether the three
    selections are made, on the first control point of each list of
    landmarks, on the scene and on the style sheet the label has: two
    widgets that agree on these get the same scene, the same label and the
    same events.  Which segmentation is selected, the landmarks after the
    first, the text the label shows and the earlier events do not matter. *)
Theorem outcome_depends_on (w w' : Widget) :
  selections_made w = selections_made w' ->
  first_point (boneSelector w) = first_point (boneSelector w') ->
  first_point (nerveSelector w) = first_point (nerveSelector w') ->
  mrmlScene w = mrmlScene w' ->
  styleSheet (resultsLabel w) = styleSheet (resultsLabel w') ->
  mrmlScene (exec onApplyButton w) = mrmlScene (exec onApplyButton w')
  /\ resultsLabel (exec onApplyButton w) = resultsLabel (exec onApplyButton w')
  /\ run_events w = run_events w'.
Proof.
  intros Hsel Hbone Hnerve Hscene Hstyle.
  destruct (selections_made w) eqn:Hs; symmetry in Hsel.
  - destruct (first_point (boneSelector w)) as [pb|] eqn:Hb;
      [destruct (first_point (nerveSelector w)) as [pn|] eqn:Hn|];
      symmetry in Hbone; symmetry in Hnerve.
    + rewrite (run_events_success w pb pn Hs Hb Hn).
      rewrite (run_events_success w' pb pn Hsel Hbone Hnerve).
      rewrite (onApplyButton_success w pb pn Hs Hb Hn).
      rewrite (onApplyButton_success w' pb pn Hsel Hbone Hnerve).
      cbv zeta. fields.
      rewrite !scene_planes_drawn, !scene_createPlane_drawn, Hscene.
      repeat split.
    + rewrite (run_events_no_points w Hs (or_intror Hn)).
      rewrite (run_events_no_points w' Hsel (or_intror Hnerve)).
      rewrite (onApplyButton_no_points w Hs (or_intror Hn)).
      rewrite (onApplyButton_no_points w' Hsel (or_intror Hnerve)).
      fields. rewrite Hscene, Hstyle. repeat split.
    + rewrite (run_events_no_points w Hs (or_introl Hb)).
      rewrite (run_events_no_points w' Hsel (or_introl Hbone)).
      rewrite (onApplyButton_no_points w Hs (or_introl Hb)).
      rewrite (onApplyButton_no_points w' Hsel (or_introl Hbone)).
      fields. rewrite Hscene, Hstyle. repeat split.
  - rewrite (run_events_no_selection w Hs).
    rewrite (run_events_no_selection w' Hsel).
    rewrite (onApplyButton_no_selection w Hs).
    rewrite (onApplyButton_no_selection w' Hsel).
    fields. rewrite Hscene. repeat split.
Qed.

Lemma outcome_depends_on_witness :
  mrmlScene (exec onApplyButton sample_widget)
  = mrmlScene (exec onApplyButton sample_variant)
  /\ resultsLabel (exec onApplyButton sample_widget)
     = resultsLabel (exec onApplyButton sample_variant)
  /\ run_events sample_widget = run_events sample_variant.
Proof.
  exact (outcome_depends_on sample_widget sample_variant
           eq_refl eq_refl eq_refl eq_refl eq_refl).
Defined.

(** ** X9: the list of teeth *)

(** X9. Whatever the box of the target tooth holds and whatever is
    chosen in it, [updateSegmentList] leaves the same five items with the
    first one, "Select Tooth...", as the current item: the items do not
    add up over calls and a choice of the user is reset.  The user data
    of the five items are pairwise distinct, so that [findData] of the
    data of an item gives the index of that item, and none is empty: the
    data of the first item is the text "None". *)
Theorem updateSegmentList_resets (cb : QComboBox) :
  let cb' := updateSegmentList cb in
  length (items cb') = 5
  /\ currentItem cb' = Some ("Select Tooth...", "None")
  /\ (forall i text data,
        items cb' !! i = Some (text, data) ->
        findData data cb' = Z.of_nat i /\ data <> "")
  /\ updateSegmentList cb' = cb'
  /\ (forall i, updateSegmentList (setCurrentIndex i cb') = cb').
Proof.
  cbv zeta. split; [reflexivity|]. split; [reflexivity|].
  split; [|split; [reflexivity|intros i; reflexivity]].
  intros i text data Hi.
  do 5 (destruct i as [|i];
        [injection Hi as <- <-; split; [reflexivity|discriminate]|]).
  discriminate Hi.
Qed.
